(** * Invoice processor: status decision, workflow and state machine

    A shallow embedding of [src/constants.ts], [src/operations.ts] and
    [src/api.ts] of the DBOS invoice processor, together with the parts of
    the database schema ([migrations/20240128000001_create_initial_tables.ts])
    that decide whether a write is accepted.

    JavaScript numbers are IEEE 754 binary64 values; they are modelled by
    Rocq's primitive [float], whose operations are the same binary64
    operations.  Identifiers (uuid columns) are strings in canonical form. *)

From Stdlib Require Import ZArith List String Ascii Bool Lia.
From Stdlib Require Import Floats.
From Stdlib Require Import DecimalString.
From Stdlib Require Import Permutation Sorted.
Import ListNotations.

Set Warnings "-inexact-float".

Local Open Scope Z_scope.

(** ** [src/constants.ts] *)

Inductive InvoiceStatus : Type :=
| PROCESSING
| NEEDS_REVIEW
| AWAITING_APPROVAL
| APPROVED
| REJECTED.

(** The string value of each member of the TypeScript enum. *)
Definition InvoiceStatus_value (s : InvoiceStatus) : string :=
  match s with
  | PROCESSING => "processing"
  | NEEDS_REVIEW => "needs_review"
  | AWAITING_APPROVAL => "awaiting_approval"
  | APPROVED => "approved"
  | REJECTED => "rejected"
  end.

Definition InvoiceStatus_values : list string :=
  map InvoiceStatus_value
      [PROCESSING; NEEDS_REVIEW; AWAITING_APPROVAL; APPROVED; REJECTED].

Inductive UserRole : Type :=
| FINANCE_CLERK
| FINANCE_MANAGER
| ADMIN.

Definition UserRole_value (r : UserRole) : string :=
  match r with
  | FINANCE_CLERK => "finance_clerk"
  | FINANCE_MANAGER => "finance_manager"
  | ADMIN => "admin"
  end.

Module BUSINESS_RULES.
Definition CONFIDENCE_THRESHOLD_AUTO_APPROVAL : float := 0.95%float.
Definition LOW_CONFIDENCE_THRESHOLD : float := 0.75%float.
Definition MAX_FILE_SIZE_BYTES : Z := 10485760.
Definition MATH_TOLERANCE : float := 0.01%float.
End BUSINESS_RULES.

Module ERROR_CODES.
Definition INVALID_FILE_FORMAT : string := "INVALID_FILE_FORMAT".
Definition FILE_TOO_LARGE : string := "FILE_TOO_LARGE".
Definition DUPLICATE_INVOICE : string := "DUPLICATE_INVOICE".
Definition INSUFFICIENT_PERMISSIONS : string := "INSUFFICIENT_PERMISSIONS".
Definition INVALID_STATUS_TRANSITION : string := "INVALID_STATUS_TRANSITION".
Definition EXTRACTION_FAILED : string := "EXTRACTION_FAILED".
Definition LOW_CONFIDENCE : string := "LOW_CONFIDENCE".
End ERROR_CODES.

(** ** JavaScript numbers *)

Module JS.

Definition number : Type := float.

(** [a < b], [a > b], [a >= b] and [a <= b] on numbers. *)
Definition lt (a b : number) : bool := PrimFloat.ltb a b.
Definition gt (a b : number) : bool := PrimFloat.ltb b a.
Definition ge (a b : number) : bool := PrimFloat.leb b a.
Definition le (a b : number) : bool := PrimFloat.leb a b.

(** A number is falsy when it is [0], [-0] or [NaN]. *)
Definition truthy (x : number) : bool :=
  negb (PrimFloat.is_nan x || PrimFloat.is_zero x).

(** [x || 0] where [x] is a number or [undefined]. *)
Definition or_zero (x : option number) : number :=
  match x with
  | Some v => if truthy v then v else 0%float
  | None => 0%float
  end.

(** [x || undefined] on a number. *)
Definition or_undefined (x : number) : option number :=
  if truthy x then Some x else None.

End JS.

(** ** Extraction results ([src/operations.ts]) *)

(** A line item as the extraction step returns it ([Omit<LineItem, 'id'>]). *)
Record LineItem : Type := {
  description : string;
  quantity : JS.number;
  unitPrice : JS.number;
  lineTotal : JS.number;
  productCode : option string;
  lineNumber : Z
}.

(** The [value] of a field is typed [any]; the step stores strings and
    numbers. *)
Inductive FieldValue : Type :=
| StringValue (s : string)
| NumberValue (n : JS.number).

Record FieldConfidence : Type := {
  value : FieldValue;
  confidence : JS.number
}.

Record ExtractionConfidence : Type := {
  conf_vendorName : option FieldConfidence;
  conf_invoiceNumber : option FieldConfidence;
  conf_invoiceDate : option FieldConfidence;
  conf_totalAmount : option FieldConfidence;
  conf_lineItems : option (list FieldConfidence);
  overallConfidence : JS.number
}.

(** [extractedData] is typed [any] in the source; every field the code
    reads may be [undefined]. *)
Record ExtractedData : Type := {
  vendorName : option string;
  invoiceNumber : string;
  invoiceDate : option string;
  dueDate : option string;
  subtotal : option JS.number;
  taxAmount : option JS.number;
  totalAmount : option JS.number;
  currency : option string;
  lineItems : option (list LineItem)
}.

(** [items.reduce((sum, item) => sum + item.lineTotal, 0)] *)
Definition reduce_lineTotal (items : list LineItem) : JS.number :=
  fold_left (fun sum item => (sum + lineTotal item)%float) items 0%float.

(** [extractedData.lineItems?.reduce(...) || 0] *)
Definition lineItemsTotal (extractedData : ExtractedData) : JS.number :=
  JS.or_zero (option_map reduce_lineTotal (lineItems extractedData)).

Definition subtotalDiff (extractedData : ExtractedData) : JS.number :=
  PrimFloat.abs
    (lineItemsTotal extractedData - JS.or_zero (subtotal extractedData))%float.

Definition totalDiff (extractedData : ExtractedData) : JS.number :=
  PrimFloat.abs
    (JS.or_zero (subtotal extractedData)
     + JS.or_zero (taxAmount extractedData)
     - JS.or_zero (totalAmount extractedData))%float.

(** [validateBusinessRulesStep]: the status decision.  The step only logs
    besides computing its result. *)
Definition validateBusinessRulesStep
           (extractedData : ExtractedData) (confidence : ExtractionConfidence)
  : InvoiceStatus :=
  if JS.lt (overallConfidence confidence) BUSINESS_RULES.LOW_CONFIDENCE_THRESHOLD
  then NEEDS_REVIEW
  else
    if JS.gt (subtotalDiff extractedData) BUSINESS_RULES.MATH_TOLERANCE
       || JS.gt (totalDiff extractedData) BUSINESS_RULES.MATH_TOLERANCE
    then NEEDS_REVIEW
    else
      if JS.ge (overallConfidence confidence)
               BUSINESS_RULES.CONFIDENCE_THRESHOLD_AUTO_APPROVAL
      then AWAITING_APPROVAL
      else NEEDS_REVIEW.

(** The amounts as the claims read them: an absent field counts as zero and
    the line-item sum is the left-to-right sum of the [lineTotal]s. *)
Definition field_value (x : option JS.number) : JS.number :=
  match x with Some v => v | None => 0%float end.

Definition lineTotal_sum (extractedData : ExtractedData) : JS.number :=
  match lineItems extractedData with
  | Some items => reduce_lineTotal items
  | None => 0%float
  end.

(** ** Strings, exceptions and the user-id pattern *)

(** [hay.includes(needle)] *)
Fixpoint includes (hay needle : string) : bool :=
  String.prefix needle hay
  || match hay with
     | EmptyString => false
     | String _ rest => includes rest needle
     end.

(** Template-literal rendering of an integral number. *)
Definition decimal (z : Z) : string := NilZero.string_of_int (Z.to_int z).

(** [s || d] on a string or [undefined]: the empty string is falsy. *)
Definition string_or (s : option string) (d : string) : string :=
  match s with
  | Some EmptyString | None => d
  | Some v => v
  end.

(** A call either returns or throws an [Error] with a message. *)
Inductive result (A : Type) : Type :=
| Ok (value : A)
| Throw (message : string).
Arguments Ok {A} value.
Arguments Throw {A} message.

Definition is_hex_digit (c : ascii) : bool :=
  let n := nat_of_ascii c in
  ((48 <=? n) && (n <=? 57) || (97 <=? n) && (n <=? 102)
   || (65 <=? n) && (n <=? 70))%nat.

(** Consumes exactly [n] hexadecimal digits. *)
Fixpoint hex_run (n : nat) (s : string) : option string :=
  match n with
  | O => Some s
  | S k =>
      match s with
      | String c rest => if is_hex_digit c then hex_run k rest else None
      | EmptyString => None
      end
  end.

Definition dash (s : string) : option string :=
  match s with
  | String "-"%char rest => Some rest
  | _ => None
  end.

Definition and_then {A B : Type} (x : option A) (f : A -> option B) : option B :=
  match x with Some a => f a | None => None end.

(** [/^[0-9a-f]{8}-[0-9a-f]{4}-[0-9a-f]{4}-[0-9a-f]{4}-[0-9a-f]{12}$/i.test(s)] *)
Definition is_uuid (s : string) : bool :=
  match
    and_then (hex_run 8 s) (fun s =>
    and_then (dash s) (fun s =>
    and_then (hex_run 4 s) (fun s =>
    and_then (dash s) (fun s =>
    and_then (hex_run 4 s) (fun s =>
    and_then (dash s) (fun s =>
    and_then (hex_run 4 s) (fun s =>
    and_then (dash s) (fun s =>
    hex_run 12 s))))))))
  with
  | Some EmptyString => true
  | _ => false
  end.

(** ** Tables ([migrations/20240128000001_create_initial_tables.ts]) *)

Module Users.
Record row : Type := {
  id : string;
  email : string;
  name : string;
  role : UserRole
}.
End Users.

Module Vendors.
Record row : Type := {
  id : string;
  name : string;
  address : option string;
  tax_id : option string;
  payment_terms : option string
}.
End Vendors.

(** [status] holds the text of the column rather than an [InvoiceStatus]:
    the delete transaction writes a literal that the enum does not have. *)
Module Invoices.
Record row : Type := {
  id : string;
  vendor_id : option string;
  invoice_number : string;
  invoice_date : option string;
  due_date : option string;
  subtotal : option JS.number;
  tax_amount : option JS.number;
  total_amount : option JS.number;
  currency : string;
  status : string;
  assigned_to : option string;
  approved_by : option string;
  file_path : string;
  extraction_confidence : option ExtractionConfidence;
  created_at : Z;
  updated_at : Z
}.

(** The values of the [status] enum column. *)
Definition status_enum : list string :=
  ["processing"; "needs_review"; "awaiting_approval"; "approved"; "rejected"]%string.

(** The check the database makes on the [status] column of a written row. *)
Definition status_check (s : string) : bool :=
  existsb (String.eqb s) status_enum.

Definition set_status (s : string) (r : row) : row :=
  {| id := id r; vendor_id := vendor_id r; invoice_number := invoice_number r;
     invoice_date := invoice_date r; due_date := due_date r;
     subtotal := subtotal r; tax_amount := tax_amount r;
     total_amount := total_amount r; currency := currency r;
     status := s;
     assigned_to := assigned_to r; approved_by := approved_by r;
     file_path := file_path r;
     extraction_confidence := extraction_confidence r;
     created_at := created_at r; updated_at := updated_at r |}.

Definition set_assigned_to (u : string) (r : row) : row :=
  {| id := id r; vendor_id := vendor_id r; invoice_number := invoice_number r;
     invoice_date := invoice_date r; due_date := due_date r;
     subtotal := subtotal r; tax_amount := tax_amount r;
     total_amount := total_amount r; currency := currency r;
     status := status r;
     assigned_to := Some u; approved_by := approved_by r;
     file_path := file_path r;
     extraction_confidence := extraction_confidence r;
     created_at := created_at r; updated_at := updated_at r |}.

Definition set_approved_by (u : string) (r : row) : row :=
  {| id := id r; vendor_id := vendor_id r; invoice_number := invoice_number r;
     invoice_date := invoice_date r; due_date := due_date r;
     subtotal := subtotal r; tax_amount := tax_amount r;
     total_amount := total_amount r; currency := currency r;
     status := status r;
     assigned_to := assigned_to r; approved_by := Some u;
     file_path := file_path r;
     extraction_confidence := extraction_confidence r;
     created_at := created_at r; updated_at := updated_at r |}.
End Invoices.

Module LineItems.
Record row : Type := {
  id : string;
  invoice_id : string;
  description : string;
  quantity : JS.number;
  unit_price : JS.number;
  line_total : JS.number;
  product_code : option string;
  line_number : Z;
  created_at : Z;
  updated_at : Z
}.
End LineItems.

(** The relational store and the upload directory. *)
Record World : Type := {
  users : list Users.row;
  vendors : list Vendors.row;
  invoices : list Invoices.row;
  line_items : list LineItems.row;
  files : list (string * list Byte.byte)
}.

Definition with_invoices (rows : list Invoices.row) (w : World) : World :=
  {| users := users w; vendors := vendors w; invoices := rows;
     line_items := line_items w; files := files w |}.

Definition with_line_items (rows : list LineItems.row) (w : World) : World :=
  {| users := users w; vendors := vendors w; invoices := invoices w;
     line_items := rows; files := files w |}.

Definition with_files (fs : list (string * list Byte.byte)) (w : World) : World :=
  {| users := users w; vendors := vendors w; invoices := invoices w;
     line_items := line_items w; files := fs |}.

Definition user_exists (w : World) (u : string) : bool :=
  existsb (fun r => String.eqb (Users.id r) u) (users w).

Definition vendor_exists (w : World) (v : string) : bool :=
  existsb (fun r => String.eqb (Vendors.id r) v) (vendors w).

Definition invoice_exists (w : World) (i : string) : bool :=
  existsb (fun r => String.eqb (Invoices.id r) i) (invoices w).

(** A nullable reference is satisfied when it is null or names a row. *)
Definition reference_ok (exists_ : string -> bool) (ref : option string) : bool :=
  match ref with
  | Some k => exists_ k
  | None => true
  end.

(** ** Transactions ([InvoiceOperations], database operations)

    A transaction either commits, giving its value and the new store, or
    throws and leaves the store as it was.  Of the constraints of the schema
    the model checks primary keys, references and the [status] enumeration.
    A transaction of the workflow also takes [fault]: the message of a
    failure that comes from outside the model (the connection, a column
    width, a numeric overflow), if there is one.  The messages of the
    database are abbreviated; the code only ever searches a message for
    [INVALID_FILE_FORMAT], [FILE_TOO_LARGE] and [not found]. *)

Definition Transaction (A : Type) : Type := World -> result (A * World).

Definition with_fault {A : Type} (fault : option string) (tx : Transaction A)
  : Transaction A :=
  fun w =>
    match fault with
    | Some message => Throw message
    | None => tx w
    end.

Module InvoiceData.
Record t : Type := {
  vendorId : option string;
  invoiceNumber : string;
  invoiceDate : option string;
  dueDate : option string;
  subtotal : option JS.number;
  taxAmount : option JS.number;
  totalAmount : option JS.number;
  currency : string;
  status : InvoiceStatus;
  filePath : string;
  extractionConfidence : option ExtractionConfidence
}.
End InvoiceData.

(** The row that [createInvoiceTransaction] inserts; [uuid] and [now] are
    the column defaults [gen_random_uuid()] and [now()]. *)
Definition invoice_row (uuid : string) (now : Z) (invoiceData : InvoiceData.t)
  : Invoices.row :=
  {| Invoices.id := uuid;
     Invoices.vendor_id := InvoiceData.vendorId invoiceData;
     Invoices.invoice_number := InvoiceData.invoiceNumber invoiceData;
     Invoices.invoice_date := InvoiceData.invoiceDate invoiceData;
     Invoices.due_date := InvoiceData.dueDate invoiceData;
     Invoices.subtotal := InvoiceData.subtotal invoiceData;
     Invoices.tax_amount := InvoiceData.taxAmount invoiceData;
     Invoices.total_amount := InvoiceData.totalAmount invoiceData;
     Invoices.currency := InvoiceData.currency invoiceData;
     Invoices.status := InvoiceStatus_value (InvoiceData.status invoiceData);
     Invoices.assigned_to := None;
     Invoices.approved_by := None;
     Invoices.file_path := InvoiceData.filePath invoiceData;
     Invoices.extraction_confidence :=
       InvoiceData.extractionConfidence invoiceData;
     Invoices.created_at := now;
     Invoices.updated_at := now |}.

Definition createInvoiceTransaction
           (uuid : string) (now : Z) (invoiceData : InvoiceData.t)
  : Transaction string :=
  fun w =>
    let row := invoice_row uuid now invoiceData in
    if invoice_exists w uuid
    then Throw "duplicate key value violates unique constraint invoices_pkey"
    else if negb (reference_ok (vendor_exists w) (Invoices.vendor_id row))
    then Throw "insert or update on table invoices violates foreign key constraint invoices_vendor_id_foreign"
    else if negb (Invoices.status_check (Invoices.status row))
    then Throw "new row for relation invoices violates check constraint invoices_status_check"
    else Ok (uuid, with_invoices (invoices w ++ [row]) w).

(** The rows that [createLineItemsTransaction] inserts, in the order of
    [lineItems]: the [k]-th row gets the identifier [uuid k]. *)
Fixpoint line_item_rows (uuid : nat -> string) (now : Z) (invoiceId : string)
         (k : nat) (lineItems : list LineItem) : list LineItems.row :=
  match lineItems with
  | [] => []
  | item :: rest =>
      {| LineItems.id := uuid k;
         LineItems.invoice_id := invoiceId;
         LineItems.description := description item;
         LineItems.quantity := quantity item;
         LineItems.unit_price := unitPrice item;
         LineItems.line_total := lineTotal item;
         LineItems.product_code := productCode item;
         LineItems.line_number := lineNumber item;
         LineItems.created_at := now;
         LineItems.updated_at := now |}
      :: line_item_rows uuid now invoiceId (S k) rest
  end.

(** No two of [rows] share an identifier, and none is in [taken]. *)
Fixpoint fresh_keys (taken : list string) (rows : list LineItems.row) : bool :=
  match rows with
  | [] => true
  | r :: rest =>
      negb (existsb (String.eqb (LineItems.id r)) taken)
      && fresh_keys (LineItems.id r :: taken) rest
  end.

Definition createLineItemsTransaction
           (uuid : nat -> string) (now : Z)
           (invoiceId : string) (lineItems : list LineItem)
  : Transaction unit :=
  fun w =>
    match lineItems with
    | [] => Ok (tt, w)
    | _ :: _ =>
        let lineItemsData := line_item_rows uuid now invoiceId O lineItems in
        if negb (fresh_keys (map LineItems.id (line_items w)) lineItemsData)
        then Throw "duplicate key value violates unique constraint line_items_pkey"
        else if negb (invoice_exists w invoiceId)
        then Throw "insert or update on table line_items violates foreign key constraint line_items_invoice_id_foreign"
        else Ok (tt, with_line_items (line_items w ++ lineItemsData) w)
    end.

Module InvoiceResponse.
Record t : Type := {
  id : string;
  vendorId : option string;
  vendorName : option string;
  invoiceNumber : string;
  invoiceDate : option string;
  dueDate : option string;
  subtotal : option JS.number;
  taxAmount : option JS.number;
  totalAmount : option JS.number;
  currency : string;
  status : string;
  assignedTo : option string;
  approvedBy : option string;
  filePath : string;
  extractionConfidence : option ExtractionConfidence;
  lineItems : list (string * LineItem);
  createdAt : Z;
  updatedAt : Z
}.
End InvoiceResponse.

(** [orderBy('line_number')]: insertion into a list sorted by line number. *)
Fixpoint insert_by_line_number (r : LineItems.row) (sorted : list LineItems.row)
  : list LineItems.row :=
  match sorted with
  | [] => [r]
  | x :: rest =>
      if LineItems.line_number r <? LineItems.line_number x
      then r :: sorted
      else x :: insert_by_line_number r rest
  end.

Definition order_by_line_number (rows : list LineItems.row) : list LineItems.row :=
  fold_right insert_by_line_number [] rows.

(** The left joins of [getInvoiceByIdTransaction]: the name of the vendor
    and the identifier of a referenced user, when the row exists. *)
Definition joined_vendor_name (w : World) (ref : option string) : option string :=
  and_then ref (fun v =>
    option_map Vendors.name
               (find (fun r => String.eqb (Vendors.id r) v) (vendors w))).

Definition joined_user_id (w : World) (ref : option string) : option string :=
  and_then ref (fun u =>
    option_map Users.id
               (find (fun r => String.eqb (Users.id r) u) (users w))).

(** [parseFloat(column) || undefined] on a nullable numeric column. *)
Definition amount_or_undefined (x : option JS.number) : option JS.number :=
  and_then x JS.or_undefined.

Definition mapLineItem (item : LineItems.row) : string * LineItem :=
  (LineItems.id item,
   {| description := LineItems.description item;
      quantity := LineItems.quantity item;
      unitPrice := LineItems.unit_price item;
      lineTotal := LineItems.line_total item;
      productCode := LineItems.product_code item;
      lineNumber := LineItems.line_number item |}).

Definition mapDatabaseToInvoiceResponse
           (w : World) (invoice : Invoices.row) (lineItems : list LineItems.row)
  : InvoiceResponse.t :=
  {| InvoiceResponse.id := Invoices.id invoice;
     InvoiceResponse.vendorId := Invoices.vendor_id invoice;
     InvoiceResponse.vendorName := joined_vendor_name w (Invoices.vendor_id invoice);
     InvoiceResponse.invoiceNumber := Invoices.invoice_number invoice;
     InvoiceResponse.invoiceDate := Invoices.invoice_date invoice;
     InvoiceResponse.dueDate := Invoices.due_date invoice;
     InvoiceResponse.subtotal := amount_or_undefined (Invoices.subtotal invoice);
     InvoiceResponse.taxAmount := amount_or_undefined (Invoices.tax_amount invoice);
     InvoiceResponse.totalAmount := amount_or_undefined (Invoices.total_amount invoice);
     InvoiceResponse.currency := Invoices.currency invoice;
     InvoiceResponse.status := Invoices.status invoice;
     InvoiceResponse.assignedTo := joined_user_id w (Invoices.assigned_to invoice);
     InvoiceResponse.approvedBy := joined_user_id w (Invoices.approved_by invoice);
     InvoiceResponse.filePath := Invoices.file_path invoice;
     InvoiceResponse.extractionConfidence := Invoices.extraction_confidence invoice;
     InvoiceResponse.lineItems := map mapLineItem lineItems;
     InvoiceResponse.createdAt := Invoices.created_at invoice;
     InvoiceResponse.updatedAt := Invoices.updated_at invoice |}.

(** [.where('invoices.id', invoiceId).first()] *)
Definition first_invoice (w : World) (invoiceId : string) : option Invoices.row :=
  find (fun r => String.eqb (Invoices.id r) invoiceId) (invoices w).

(** Read-only: the store is returned as it was. *)
Definition getInvoiceByIdTransaction (invoiceId : string)
  : Transaction (option InvoiceResponse.t) :=
  fun w =>
    match first_invoice w invoiceId with
    | None => Ok (None, w)
    | Some invoice =>
        let lineItems :=
          order_by_line_number
            (filter (fun r => String.eqb (LineItems.invoice_id r) invoiceId)
                    (line_items w)) in
        Ok (Some (mapDatabaseToInvoiceResponse w invoice lineItems), w)
    end.

(** The object handed to [.update(...)]: the keys that are present. *)
Record UpdateData : Type := {
  set_status : option string;
  set_assigned_to : option string;
  set_approved_by : option string
}.

Definition apply_update (updateData : UpdateData) (r : Invoices.row) : Invoices.row :=
  let r := match set_status updateData with
           | Some s => Invoices.set_status s r
           | None => r
           end in
  let r := match set_assigned_to updateData with
           | Some u => Invoices.set_assigned_to u r
           | None => r
           end in
  match set_approved_by updateData with
  | Some u => Invoices.set_approved_by u r
  | None => r
  end.

(** The constraint an updated row violates, if any: the check on [status]
    first, then the references that the update sets. *)
Definition update_violation (w : World) (updateData : UpdateData)
           (updated : Invoices.row) : option string :=
  if negb (Invoices.status_check (Invoices.status updated))
  then Some "new row for relation invoices violates check constraint invoices_status_check"%string
  else if negb (reference_ok (user_exists w) (set_assigned_to updateData))
  then Some "insert or update on table invoices violates foreign key constraint invoices_assigned_to_foreign"%string
  else if negb (reference_ok (user_exists w) (set_approved_by updateData))
  then Some "insert or update on table invoices violates foreign key constraint invoices_approved_by_foreign"%string
  else None.

(** [.where('id', invoiceId).update(updateData)] over the rows of the table. *)
Fixpoint update_rows (w : World) (invoiceId : string) (updateData : UpdateData)
         (rows : list Invoices.row) : result (list Invoices.row) :=
  match rows with
  | [] => Ok []
  | r :: rest =>
      if String.eqb (Invoices.id r) invoiceId
      then
        let updated := apply_update updateData r in
        match update_violation w updateData updated with
        | Some message => Throw message
        | None =>
            match update_rows w invoiceId updateData rest with
            | Ok rest' => Ok (updated :: rest')
            | Throw message => Throw message
            end
        end
      else
        match update_rows w invoiceId updateData rest with
        | Ok rest' => Ok (r :: rest')
        | Throw message => Throw message
        end
  end.

Definition update_invoices (invoiceId : string) (updateData : UpdateData)
  : Transaction unit :=
  fun w =>
    match update_rows w invoiceId updateData (invoices w) with
    | Ok rows => Ok (tt, with_invoices rows w)
    | Throw message => Throw message
    end.

Definition updateInvoiceStatusTransaction
           (invoiceId : string) (status : string)
           (assignedTo approvedBy : option string) : Transaction unit :=
  update_invoices invoiceId
    {| set_status := Some status;
       set_assigned_to := assignedTo;
       set_approved_by := approvedBy |}.

(** "Soft delete by updating status" *)
Definition deleteInvoiceTransaction (invoiceId : string) : Transaction unit :=
  update_invoices invoiceId
    {| set_status := Some "deleted"%string;
       set_assigned_to := None;
       set_approved_by := None |}.

(** ** Steps and the workflow *)

(** A computation of the workflow: it returns or throws, and the store it
    leaves is the one its committed transactions and its writes produced. *)
Definition Workflow (A : Type) : Type := World -> result A * World.

Definition ret {A : Type} (a : A) : Workflow A := fun w => (Ok a, w).

Definition throw {A : Type} (message : string) : Workflow A :=
  fun w => (Throw message, w).

Definition bind {A B : Type} (c : Workflow A) (k : A -> Workflow B) : Workflow B :=
  fun w =>
    match c w with
    | (Ok a, w') => k a w'
    | (Throw message, w') => (Throw message, w')
    end.

Notation "x <- c ;; k" := (bind c (fun x => k))
  (at level 61, c at next level, right associativity).

(** Runs a transaction: a thrown transaction is rolled back. *)
Definition transaction {A : Type} (tx : Transaction A) : Workflow A :=
  fun w =>
    match tx w with
    | Ok (a, w') => (Ok a, w')
    | Throw message => (Throw message, w)
    end.

Definition lift {A : Type} (r : result A) : Workflow A := fun w => (r, w).

(** [Express.Multer.File], as far as the code reads it; [size] is the byte
    count that the upload middleware reports. *)
Record File : Type := {
  originalname : string;
  mimetype : string;
  size : Z;
  buffer : list Byte.byte
}.

Record ProcessEnv : Type := {
  UPLOAD_DIR : option string;
  NODE_ENV : option string
}.

(** What one run of the workflow reads from its environment. *)
Record WorkflowEnv : Type := {
  save_now : Z;                    (* Date.now() in saveFileStep *)
  extract_now : Z;                 (* Date.now() in the invoice number *)
  extract_today : string;          (* new Date(), as an ISO date *)
  extract_due : string;            (* thirty days later, as an ISO date *)
  database_now : Z;                (* now() of the database *)
  invoice_uuid : string;           (* gen_random_uuid() of the invoice row *)
  line_item_uuid : nat -> string;  (* gen_random_uuid() of the line items *)
  save_file_fault : option string;
  create_invoice_fault : option string;
  create_line_items_fault : option string;
  get_invoice_fault : option string
}.

(** The components of a path between its slashes. *)
Fixpoint split_slash (current : string) (p : string) : list string :=
  match p with
  | EmptyString => [current]
  | String "/"%char rest => current :: split_slash EmptyString rest
  | String c rest => split_slash (current ++ String c EmptyString) rest
  end.

(** [path.basename]: the last component that is not empty. *)
Definition basename (p : string) : string :=
  last (filter (fun c => negb (String.eqb c EmptyString))
               (split_slash EmptyString p))
       EmptyString.

(** [saveFileStep]: the stored name is the timestamp, a dash and the base
    name of the original name; [path.join] is taken on an upload directory
    in normal form. *)
Definition saveFileStep (penv : ProcessEnv) (env : WorkflowEnv)
           (fileBuffer : list Byte.byte) (originalName : string)
  : Workflow string :=
  fun w =>
    match save_file_fault env with
    | Some message => (Throw message, w)
    | None =>
        let uploadDir := string_or (UPLOAD_DIR penv) "uploads/invoices" in
        let filename :=
          (decimal (save_now env) ++ "-" ++ basename originalName)%string in
        let filePath := (uploadDir ++ "/" ++ filename)%string in
        (Ok filePath, with_files ((filePath, fileBuffer) :: files w) w)
    end.

Definition allowedTypes : list string :=
  ["application/pdf"; "image/png"; "image/jpeg"; "image/jpg"]%string.

Definition validateFileStep (file : File) : result unit :=
  if negb (existsb (String.eqb (mimetype file)) allowedTypes)
  then Throw (ERROR_CODES.INVALID_FILE_FORMAT
              ++ ": Unsupported file type " ++ mimetype file)%string
  else if BUSINESS_RULES.MAX_FILE_SIZE_BYTES <? size file
  then Throw (ERROR_CODES.FILE_TOO_LARGE
              ++ ": File size " ++ decimal (size file) ++ " exceeds limit")%string
  else Ok tt.

(** [extractInvoiceDataStep]: the mock extraction. *)
Definition extractInvoiceDataStep (env : WorkflowEnv) (filePath : string)
  : ExtractedData * ExtractionConfidence :=
  let extractedData :=
    {| vendorName := Some "Acme Corp"%string;
       invoiceNumber := ("INV-" ++ decimal (extract_now env))%string;
       invoiceDate := Some (extract_today env);
       dueDate := Some (extract_due env);
       subtotal := Some 1000.00%float;
       taxAmount := Some 80.00%float;
       totalAmount := Some 1080.00%float;
       currency := Some "USD"%string;
       lineItems :=
         Some [ {| description := "Professional Services";
                   quantity := 1%float;
                   unitPrice := 1000.00%float;
                   lineTotal := 1000.00%float;
                   productCode := None;
                   lineNumber := 1 |} ] |} in
  let confidence :=
    {| conf_vendorName :=
         Some {| value := StringValue "Acme Corp"; confidence := 0.95%float |};
       conf_invoiceNumber :=
         Some {| value := StringValue (invoiceNumber extractedData);
                 confidence := 0.98%float |};
       conf_invoiceDate :=
         Some {| value := StringValue (extract_today env);
                 confidence := 0.92%float |};
       conf_totalAmount :=
         Some {| value := NumberValue 1080.00%float; confidence := 0.97%float |};
       conf_lineItems := None;
       overallConfidence := 0.93%float |} in
  (extractedData, confidence).

(** [extractedData.lineItems && extractedData.lineItems.length > 0], with
    the items when it holds. *)
Definition nonempty_lineItems (extractedData : ExtractedData)
  : option (list LineItem) :=
  match lineItems extractedData with
  | Some (item :: rest) => Some (item :: rest)
  | _ => None
  end.

Definition invoiceProcessingWorkflow
           (penv : ProcessEnv) (env : WorkflowEnv) (fileData : File)
  : Workflow InvoiceResponse.t :=
  _ <- lift (validateFileStep fileData) ;;
  filePath <- saveFileStep penv env (buffer fileData) (originalname fileData) ;;
  let (extractedData, confidence) := extractInvoiceDataStep env filePath in
  let status := validateBusinessRulesStep extractedData confidence in
  invoiceId <-
    transaction
      (with_fault (create_invoice_fault env)
         (createInvoiceTransaction (invoice_uuid env) (database_now env)
            {| InvoiceData.vendorId := None;
               InvoiceData.invoiceNumber := invoiceNumber extractedData;
               InvoiceData.invoiceDate := invoiceDate extractedData;
               InvoiceData.dueDate := dueDate extractedData;
               InvoiceData.subtotal := subtotal extractedData;
               InvoiceData.taxAmount := taxAmount extractedData;
               InvoiceData.totalAmount := totalAmount extractedData;
               InvoiceData.currency := string_or (currency extractedData) "USD";
               InvoiceData.status := status;
               InvoiceData.filePath := filePath;
               InvoiceData.extractionConfidence := Some confidence |})) ;;
  _ <- match nonempty_lineItems extractedData with
       | Some items =>
           transaction
             (with_fault (create_line_items_fault env)
                (createLineItemsTransaction (line_item_uuid env)
                   (database_now env) invoiceId items))
       | None => ret tt
       end ;;
  invoice <-
    transaction
      (with_fault (get_invoice_fault env) (getInvoiceByIdTransaction invoiceId)) ;;
  match invoice with
  | None => throw "Failed to retrieve created invoice"
  | Some invoice => ret invoice
  end.

(** ** HTTP API ([src/api.ts]) *)

Record ErrorBody : Type := {
  code : string;
  message : string;
  details : option string
}.

(** [ApiResponse<InvoiceResponse | null>] *)
Inductive ApiResponse : Type :=
| Success (data : option InvoiceResponse.t)
| Failure (error : ErrorBody).

(** [res.status(s).json(b)], or [res.status(s).send()] without a body. *)
Record Response : Type := {
  http_status : Z;
  body : option ApiResponse
}.

Definition createSuccessResponse (data : option InvoiceResponse.t) : ApiResponse :=
  Success data.

Definition createErrorResponse (code message : string) (details : option string)
  : ApiResponse :=
  Failure {| code := code; message := message; details := details |}.

Definition json (status : Z) (b : ApiResponse) : Response :=
  {| http_status := status; body := Some b |}.

(** The message shown with a 500 answer, in development only. *)
Definition development_details (penv : ProcessEnv) (errorMessage : string)
  : option string :=
  match NODE_ENV penv with
  | Some mode => if String.eqb mode "development" then Some errorMessage else None
  | None => None
  end.

Definition handleError (penv : ProcessEnv) (errorMessage : string) : Response :=
  if includes errorMessage ERROR_CODES.INVALID_FILE_FORMAT
  then json 400 (createErrorResponse ERROR_CODES.INVALID_FILE_FORMAT
                   "Invalid file format. Only PDF, PNG, and JPG files are allowed."
                   None)
  else if includes errorMessage ERROR_CODES.FILE_TOO_LARGE
  then json 413 (createErrorResponse ERROR_CODES.FILE_TOO_LARGE
                   "File size exceeds the 10MB limit." None)
  else if includes errorMessage "not found"
  then json 404 (createErrorResponse "NOT_FOUND" "Resource not found." None)
  else json 500 (createErrorResponse "INTERNAL_ERROR"
                   "An internal server error occurred."
                   (development_details penv errorMessage)).

(** [try { ... } catch (error) { return handleError(error, res); }] *)
Definition try_catch (penv : ProcessEnv) (handler : Workflow Response)
  : World -> Response * World :=
  fun w =>
    match handler w with
    | (Ok response, w') => (response, w')
    | (Throw errorMessage, w') => (handleError penv errorMessage, w')
    end.

(** *** Upload *)

(** What the upload middleware passes on instead of calling the route. *)
Inductive UploadError : Type :=
| MulterError (code : string) (message : string)
| PlainError (message : string).

Definition upload_allowedTypes : list string :=
  ["application/pdf"; "image/png"; "image/jpeg"]%string.

(** [upload.single('file')] with the configured [fileFilter] and
    [limits.fileSize]: the filter sees the file first; a file larger than
    the limit is refused with [LIMIT_FILE_SIZE]; otherwise the file, if
    any, becomes [req.file].  The multipart parser is library code: whether
    it still delivers a file of exactly [limits.fileSize] bytes, as the
    option is documented ("the max file size"), or already stops it, is the
    parameter [delivers_limit]. *)
Definition upload_single (delivers_limit : bool) (file : option File)
  : option File + UploadError :=
  match file with
  | None => inl None
  | Some f =>
      if negb (existsb (String.eqb (mimetype f)) upload_allowedTypes)
      then inr (PlainError ERROR_CODES.INVALID_FILE_FORMAT)
      else if (BUSINESS_RULES.MAX_FILE_SIZE_BYTES <? size f)
              || negb delivers_limit
                 && (size f =? BUSINESS_RULES.MAX_FILE_SIZE_BYTES)
      then inr (MulterError "LIMIT_FILE_SIZE" "File too large")
      else inl (Some f)
  end.

(** The two error-handling middlewares at the end of the application. *)
Definition error_middleware (penv : ProcessEnv) (error : UploadError) : Response :=
  match error with
  | MulterError "LIMIT_FILE_SIZE" _ =>
      json 413 (createErrorResponse ERROR_CODES.FILE_TOO_LARGE
                  "File size exceeds the 10MB limit." None)
  | MulterError _ errorMessage | PlainError errorMessage =>
      if String.eqb errorMessage ERROR_CODES.INVALID_FILE_FORMAT
      then json 400 (createErrorResponse ERROR_CODES.INVALID_FILE_FORMAT
                       "Invalid file format. Only PDF, PNG, and JPG files are allowed."
                       None)
      else json 500 (createErrorResponse "INTERNAL_ERROR"
                       "An internal server error occurred."
                       (development_details penv errorMessage))
  end.

Record Metadata : Type := {
  expectedVendor : option string;
  expectedAmount : option JS.number;
  purchaseOrderNumber : option string
}.

(** The [metadata] field of the form, after [JSON.parse]. *)
Inductive MetadataField : Type :=
| NoMetadata
| MalformedMetadata (syntaxError : string)
| NonConformingMetadata
| ConformingMetadata (metadata : Metadata).

(** [InvoiceSubmissionSchema.safeParse({ file, metadata }).success] *)
Definition InvoiceSubmissionSchema (file : File) (metadata : MetadataField) : bool :=
  (size file <=? BUSINESS_RULES.MAX_FILE_SIZE_BYTES)
  && match metadata with
     | NonConformingMetadata => false
     | _ => true
     end.

(** [POST /api/invoices/upload] *)
Definition post_invoices_upload
           (delivers_limit : bool) (penv : ProcessEnv) (env : WorkflowEnv)
           (file : option File) (metadata : MetadataField)
  : World -> Response * World :=
  fun w =>
    match upload_single delivers_limit file with
    | inr error => (error_middleware penv error, w)
    | inl None =>
        (json 400 (createErrorResponse "MISSING_FILE"
                     "No file provided in the request." None), w)
    | inl (Some req_file) =>
        try_catch penv
          (match metadata with
           | MalformedMetadata syntaxError => throw syntaxError
           | _ =>
               if negb (InvoiceSubmissionSchema req_file metadata)
               then ret (json 400 (createErrorResponse "VALIDATION_ERROR"
                                     "Invalid request data."
                                     (Some "issues"%string)))
               else
                 invoice <- invoiceProcessingWorkflow penv env req_file ;;
                 ret (json 201 (createSuccessResponse (Some invoice)))
           end) w
    end.

(** *** Invoice actions *)

Definition not_found : Response :=
  json 404 (createErrorResponse "NOT_FOUND" "Invoice not found." None).

(** What reading a property of an absent [req.body] throws. *)
Definition destructure_error (property : string) : string :=
  ("Cannot destructure property '" ++ property
   ++ "' of 'req.body' as it is undefined.")%string.

(** [DELETE /api/invoices/:id] *)
Definition delete_invoice (penv : ProcessEnv) (invoiceId : string)
  : World -> Response * World :=
  try_catch penv
    (existingInvoice <- transaction (getInvoiceByIdTransaction invoiceId) ;;
     match existingInvoice with
     | None => ret not_found
     | Some _ =>
         _ <- transaction (deleteInvoiceTransaction invoiceId) ;;
         ret {| http_status := 204; body := None |}
     end).

Record ApprovalRequest : Type := {
  approval_comments : option string
}.

(** [POST /api/invoices/:id/approve]; [x_user_id] is the request header. *)
Definition post_invoices_approve
           (penv : ProcessEnv) (invoiceId : string)
           (x_user_id : option string) (req_body : option ApprovalRequest)
  : World -> Response * World :=
  try_catch penv
    (match req_body with
     | None => throw (destructure_error "comments")
     | Some _ =>
         let currentUserId := string_or x_user_id EmptyString in
         if negb (is_uuid currentUserId)
         then ret (json 401 (createErrorResponse "INVALID_USER_ID"
                               "Valid user authentication required for approval."
                               None))
         else
           existingInvoice <- transaction (getInvoiceByIdTransaction invoiceId) ;;
           match existingInvoice with
           | None => ret not_found
           | Some existing =>
               if negb (String.eqb (InvoiceResponse.status existing)
                                   (InvoiceStatus_value AWAITING_APPROVAL))
               then ret (json 400 (createErrorResponse "INVALID_STATUS_TRANSITION"
                                     "Invoice is not awaiting approval." None))
               else
                 _ <- transaction
                        (updateInvoiceStatusTransaction invoiceId
                           (InvoiceStatus_value APPROVED) None (Some currentUserId)) ;;
                 updatedInvoice <- transaction (getInvoiceByIdTransaction invoiceId) ;;
                 ret (json 200 (createSuccessResponse updatedInvoice))
           end
     end).

Record RejectionRequest : Type := {
  reason : option string;
  rejection_comments : option string
}.

(** [POST /api/invoices/:id/reject] *)
Definition post_invoices_reject
           (penv : ProcessEnv) (invoiceId : string)
           (req_body : option RejectionRequest)
  : World -> Response * World :=
  try_catch penv
    (match req_body with
     | None => throw (destructure_error "reason")
     | Some request =>
         if String.eqb (string_or (reason request) EmptyString) EmptyString
         then ret (json 400 (createErrorResponse "MISSING_REASON"
                               "Rejection reason is required." None))
         else
           existingInvoice <- transaction (getInvoiceByIdTransaction invoiceId) ;;
           match existingInvoice with
           | None => ret not_found
           | Some _ =>
               _ <- transaction
                      (updateInvoiceStatusTransaction invoiceId
                         (InvoiceStatus_value REJECTED) None None) ;;
               updatedInvoice <- transaction (getInvoiceByIdTransaction invoiceId) ;;
               ret (json 200 (createSuccessResponse updatedInvoice))
           end
     end).

(** ** A seeded store ([seeds/initial_invoices.ts])

    The two users, two of the vendors and three of the invoices of the seed;
    the confidence records of the seed are left out. *)

Module Seed.

Definition clerk : Users.row :=
  {| Users.id := "550e8400-e29b-41d4-a716-446655440001";
     Users.email := "clerk@company.com";
     Users.name := "Finance Clerk";
     Users.role := FINANCE_CLERK |}.

Definition manager : Users.row :=
  {| Users.id := "550e8400-e29b-41d4-a716-446655440002";
     Users.email := "manager@company.com";
     Users.name := "Finance Manager";
     Users.role := FINANCE_MANAGER |}.

Definition techsupply : Vendors.row :=
  {| Vendors.id := "550e8400-e29b-41d4-a716-446655440010";
     Vendors.name := "TechSupply Corp";
     Vendors.address := Some "123 Business Ave, Tech City, TC 12345"%string;
     Vendors.tax_id := Some "TAX123456789"%string;
     Vendors.payment_terms := Some "Net 30"%string |}.

Definition office_solutions : Vendors.row :=
  {| Vendors.id := "550e8400-e29b-41d4-a716-446655440011";
     Vendors.name := "Office Solutions LLC";
     Vendors.address := Some "456 Commerce St, Business Town, BT 67890"%string;
     Vendors.tax_id := Some "TAX987654321"%string;
     Vendors.payment_terms := Some "Net 15"%string |}.

Definition needs_review_invoice : Invoices.row :=
  {| Invoices.id := "550e8400-e29b-41d4-a716-446655440020";
     Invoices.vendor_id := Some "550e8400-e29b-41d4-a716-446655440010"%string;
     Invoices.invoice_number := "INV-2024-001";
     Invoices.invoice_date := Some "2024-01-15"%string;
     Invoices.due_date := Some "2024-02-14"%string;
     Invoices.subtotal := Some 1000.00%float;
     Invoices.tax_amount := Some 80.00%float;
     Invoices.total_amount := Some 1080.00%float;
     Invoices.currency := "USD";
     Invoices.status := "needs_review";
     Invoices.assigned_to := Some "550e8400-e29b-41d4-a716-446655440001"%string;
     Invoices.approved_by := None;
     Invoices.file_path := "invoices/inv-2024-001.pdf";
     Invoices.extraction_confidence := None;
     Invoices.created_at := 1706400000000;
     Invoices.updated_at := 1706400000000 |}.

Definition awaiting_approval_invoice : Invoices.row :=
  {| Invoices.id := "550e8400-e29b-41d4-a716-446655440021";
     Invoices.vendor_id := Some "550e8400-e29b-41d4-a716-446655440011"%string;
     Invoices.invoice_number := "OS-2024-0045";
     Invoices.invoice_date := Some "2024-01-20"%string;
     Invoices.due_date := Some "2024-02-04"%string;
     Invoices.subtotal := Some 750.00%float;
     Invoices.tax_amount := Some 60.00%float;
     Invoices.total_amount := Some 810.00%float;
     Invoices.currency := "USD";
     Invoices.status := "awaiting_approval";
     Invoices.assigned_to := Some "550e8400-e29b-41d4-a716-446655440001"%string;
     Invoices.approved_by := None;
     Invoices.file_path := "invoices/inv-2024-002.pdf";
     Invoices.extraction_confidence := None;
     Invoices.created_at := 1706400000000;
     Invoices.updated_at := 1706400000000 |}.

Definition approved_invoice : Invoices.row :=
  {| Invoices.id := "550e8400-e29b-41d4-a716-446655440024";
     Invoices.vendor_id := Some "550e8400-e29b-41d4-a716-446655440011"%string;
     Invoices.invoice_number := "OS-2024-0032";
     Invoices.invoice_date := Some "2024-01-10"%string;
     Invoices.due_date := Some "2024-01-25"%string;
     Invoices.subtotal := Some 500.00%float;
     Invoices.tax_amount := Some 40.00%float;
     Invoices.total_amount := Some 540.00%float;
     Invoices.currency := "USD";
     Invoices.status := "approved";
     Invoices.assigned_to := Some "550e8400-e29b-41d4-a716-446655440001"%string;
     Invoices.approved_by := Some "550e8400-e29b-41d4-a716-446655440002"%string;
     Invoices.file_path := "invoices/inv-2024-005.pdf";
     Invoices.extraction_confidence := None;
     Invoices.created_at := 1706400000000;
     Invoices.updated_at := 1706400000000 |}.

Definition world : World :=
  {| users := [clerk; manager];
     vendors := [techsupply; office_solutions];
     invoices := [needs_review_invoice; awaiting_approval_invoice; approved_invoice];
     line_items := [];
     files := [] |}.

Definition penv : ProcessEnv := {| UPLOAD_DIR := None; NODE_ENV := None |}.

(** A run in which nothing outside the model fails. *)
Definition env : WorkflowEnv :=
  {| save_now := 1706400000100;
     extract_now := 1706400000101;
     extract_today := "2024-01-28";
     extract_due := "2024-02-27";
     database_now := 1706400000102;
     invoice_uuid := "550e8400-e29b-41d4-a716-446655440030";
     line_item_uuid := fun k =>
       ("550e8400-e29b-41d4-a716-44665544004" ++ decimal (Z.of_nat k))%string;
     save_file_fault := None;
     create_invoice_fault := None;
     create_line_items_fault := None;
     get_invoice_fault := None |}.

(** The same run, except that the database connection is lost while the
    line items are inserted. *)
Definition env_line_items_fail : WorkflowEnv :=
  {| save_now := save_now env;
     extract_now := extract_now env;
     extract_today := extract_today env;
     extract_due := extract_due env;
     database_now := database_now env;
     invoice_uuid := invoice_uuid env;
     line_item_uuid := line_item_uuid env;
     save_file_fault := None;
     create_invoice_fault := None;
     create_line_items_fault := Some "Connection terminated unexpectedly"%string;
     get_invoice_fault := None |}.

(** An upload of [bytes] bytes, of which the model keeps the first four. *)
Definition pdf (bytes : Z) : File :=
  {| originalname := "invoice.pdf";
     mimetype := "application/pdf";
     size := bytes;
     buffer := [Byte.x25; Byte.x50; Byte.x44; Byte.x46] |}.

End Seed.

(** ** Extraction results used as examples *)

Module Example.

Definition services (total : JS.number) : LineItem :=
  {| description := "Professional Services";
     quantity := 1%float;
     unitPrice := total;
     lineTotal := total;
     productCode := None;
     lineNumber := 1 |}.

(** One line of 900.00 against a subtotal of 1000.00. *)
Definition unreconciled : ExtractedData :=
  {| vendorName := Some "Acme Corp"%string;
     invoiceNumber := "INV-1";
     invoiceDate := Some "2024-01-28"%string;
     dueDate := Some "2024-02-27"%string;
     subtotal := Some 1000.00%float;
     taxAmount := Some 80.00%float;
     totalAmount := Some 1080.00%float;
     currency := Some "USD"%string;
     lineItems := Some [services 900.00%float] |}.

(** One line of 1000.00, subtotal 1000.00, tax 80.00, total 1080.00. *)
Definition reconciled : ExtractedData :=
  {| vendorName := Some "Acme Corp"%string;
     invoiceNumber := "INV-2";
     invoiceDate := Some "2024-01-28"%string;
     dueDate := Some "2024-02-27"%string;
     subtotal := Some 1000.00%float;
     taxAmount := Some 80.00%float;
     totalAmount := Some 1080.00%float;
     currency := Some "USD"%string;
     lineItems := Some [services 1000.00%float] |}.

(** Nothing but an invoice number was extracted. *)
Definition no_amounts : ExtractedData :=
  {| vendorName := None;
     invoiceNumber := "INV-3";
     invoiceDate := None;
     dueDate := None;
     subtotal := None;
     taxAmount := None;
     totalAmount := None;
     currency := None;
     lineItems := None |}.

Definition overall (c : JS.number) : ExtractionConfidence :=
  {| conf_vendorName := None;
     conf_invoiceNumber := None;
     conf_invoiceDate := None;
     conf_totalAmount := None;
     conf_lineItems := None;
     overallConfidence := c |}.

End Example.

(** ** Notions used in the proofs *)

(** What [x || 0] does to the specification-level value of [x]. *)
Definition sf_or_zero (X : spec_float) : spec_float :=
  match X with
  | S754_nan | S754_zero _ => S754_zero false
  | _ => X
  end.

(** [related a b]: [b] is what a computation yields after some of its
    inputs went through [|| 0], when the untouched computation yields
    [a]: nothing is known if [a] is NaN, and otherwise the two agree
    up to the sign of a zero. *)
Definition related (a b : spec_float) : Prop :=
  a = S754_nan \/ a = b \/ (exists s t, a = S754_zero s /\ b = S754_zero t).

Definition line_items_of (w : World) (invoiceId : string) : list LineItems.row :=
  order_by_line_number
    (filter (fun r => String.eqb (LineItems.invoice_id r) invoiceId) (line_items w)).

Definition updated_invoices (invoiceId : string) (u : UpdateData) (w : World) : World :=
  with_invoices
    (map (fun r => if String.eqb (Invoices.id r) invoiceId
                   then apply_update u r else r) (invoices w)) w.

(** The path under which [saveFileStep] stores the upload. *)
Definition stored_path (penv : ProcessEnv) (env : WorkflowEnv) (fileData : File)
  : string :=
  (string_or (UPLOAD_DIR penv) "uploads/invoices" ++ "/"
   ++ (decimal (save_now env) ++ "-" ++ basename (originalname fileData)))%string.

(** The store once the file is saved. *)
Definition saved (penv : ProcessEnv) (env : WorkflowEnv) (fileData : File)
           (w : World) : World :=
  with_files ((stored_path penv env fileData, buffer fileData) :: files w) w.

(** The invoice that the workflow asks the database to insert. *)
Definition submitted_invoice (penv : ProcessEnv) (env : WorkflowEnv)
           (fileData : File) : InvoiceData.t :=
  let filePath := stored_path penv env fileData in
  let extractedData := fst (extractInvoiceDataStep env filePath) in
  let confidence := snd (extractInvoiceDataStep env filePath) in
  {| InvoiceData.vendorId := None;
     InvoiceData.invoiceNumber := invoiceNumber extractedData;
     InvoiceData.invoiceDate := invoiceDate extractedData;
     InvoiceData.dueDate := dueDate extractedData;
     InvoiceData.subtotal := subtotal extractedData;
     InvoiceData.taxAmount := taxAmount extractedData;
     InvoiceData.totalAmount := totalAmount extractedData;
     InvoiceData.currency := string_or (currency extractedData) "USD";
     InvoiceData.status := validateBusinessRulesStep extractedData confidence;
     InvoiceData.filePath := filePath;
     InvoiceData.extractionConfidence := Some confidence |}.

(** The line items that the workflow asks the database to insert. *)
Definition submitted_line_items (penv : ProcessEnv) (env : WorkflowEnv)
           (fileData : File) : list LineItem :=
  match lineItems (fst (extractInvoiceDataStep env (stored_path penv env fileData))) with
  | Some items => items
  | None => []
  end.

(** The row and the line-item rows that a run inserts. *)
Definition inserted_invoice (penv : ProcessEnv) (env : WorkflowEnv)
           (fileData : File) : Invoices.row :=
  invoice_row (invoice_uuid env) (database_now env)
              (submitted_invoice penv env fileData).

Definition inserted_line_items (penv : ProcessEnv) (env : WorkflowEnv)
           (fileData : File) : list LineItems.row :=
  line_item_rows (line_item_uuid env) (database_now env) (invoice_uuid env) O
                 (submitted_line_items penv env fileData).

(** C2 as the claim states it: after a run, the invoice row and all of its
    extracted line items are persisted together, or no invoice row and no
    line items are persisted. *)
Definition all_or_nothing (penv : ProcessEnv) (env : WorkflowEnv)
           (fileData : File) (w : World) : Prop :=
  let w' := snd (invoiceProcessingWorkflow penv env fileData w) in
  (invoice_exists w' (invoice_uuid env) = true
   /\ forall item,
       In item (submitted_line_items penv env fileData) ->
       exists row,
         In row (line_items w')
         /\ LineItems.invoice_id row = invoice_uuid env
         /\ snd (mapLineItem row) = item)
  \/ (invoices w' = invoices w /\ line_items w' = line_items w).

Ltac failure_answer :=
  simpl; split; [reflexivity | eexists; reflexivity].

(** ** Further actions of the API ([src/api.ts]) *)

(** [POST /api/invoices/:id/submit-for-approval] *)
Definition post_invoices_submit_for_approval
           (penv : ProcessEnv) (invoiceId : string)
  : World -> Response * World :=
  try_catch penv
    (existingInvoice <- transaction (getInvoiceByIdTransaction invoiceId) ;;
     match existingInvoice with
     | None => ret not_found
     | Some existing =>
         if negb (String.eqb (InvoiceResponse.status existing)
                             (InvoiceStatus_value NEEDS_REVIEW))
         then ret (json 400 (createErrorResponse "INVALID_STATUS_TRANSITION"
                               "Invoice is not ready for approval." None))
         else
           _ <- transaction
                  (updateInvoiceStatusTransaction invoiceId
                     (InvoiceStatus_value AWAITING_APPROVAL) None None) ;;
           updatedInvoice <- transaction (getInvoiceByIdTransaction invoiceId) ;;
           ret (json 200 (createSuccessResponse updatedInvoice))
     end).

Record AssignmentRequest : Type := {
  userId : option string
}.

(** [POST /api/invoices/:id/assign] *)
Definition post_invoices_assign
           (penv : ProcessEnv) (invoiceId : string)
           (req_body : option AssignmentRequest)
  : World -> Response * World :=
  try_catch penv
    (match req_body with
     | None => throw (destructure_error "userId")
     | Some request =>
         let user := string_or (userId request) EmptyString in
         if String.eqb user EmptyString
         then ret (json 400 (createErrorResponse "MISSING_USER_ID"
                               "User ID is required." None))
         else if negb (is_uuid user)
         then ret (json 400 (createErrorResponse "INVALID_USER_ID"
                               "User ID must be a valid UUID format." None))
         else
           existingInvoice <- transaction (getInvoiceByIdTransaction invoiceId) ;;
           match existingInvoice with
           | None => ret not_found
           | Some existing =>
               _ <- transaction
                      (updateInvoiceStatusTransaction invoiceId
                         (InvoiceResponse.status existing) (Some user) None) ;;
               updatedInvoice <- transaction (getInvoiceByIdTransaction invoiceId) ;;
               ret (json 200 (createSuccessResponse updatedInvoice))
           end
     end).

(** ** Listing and dashboards ([src/operations.ts]) *)

(** [orderBy]: insertion of a row in front of the first row it goes before. *)
Fixpoint insert_before {A : Type} (before : A -> A -> bool) (r : A)
         (sorted : list A) : list A :=
  match sorted with
  | [] => [r]
  | x :: rest =>
      if before r x then r :: sorted else x :: insert_before before r rest
  end.

Definition order_by {A : Type} (before : A -> A -> bool) (rows : list A) : list A :=
  fold_right (insert_before before) [] rows.

(** [orderBy('invoices.created_at', 'desc')] *)
Definition newer (r x : Invoices.row) : bool :=
  Invoices.created_at x <? Invoices.created_at r.

(** [.limit(limit).offset(offset)] on the ordered rows. *)
Definition page_of {A : Type} (limit offset : Z) (rows : list A) : list A :=
  firstn (Z.to_nat limit) (skipn (Z.to_nat offset) rows).

(** The line items of one invoice, as both listings read them. *)
Definition invoice_line_items (w : World) (invoiceId : string) : list LineItems.row :=
  order_by_line_number
    (filter (fun r => String.eqb (LineItems.invoice_id r) invoiceId) (line_items w)).

(** [getInvoicesWithVendorTransaction(status, limit, offset)]: [status]
    filters when it is given and not empty; the database refuses a negative
    limit or offset. *)
Definition getInvoicesWithVendorTransaction
           (status : option string) (limit offset : Z)
  : Transaction (list InvoiceResponse.t) :=
  fun w =>
    if limit <? 0 then Throw "LIMIT must not be negative"
    else if offset <? 0 then Throw "OFFSET must not be negative"
    else
      let wanted (r : Invoices.row) :=
        match status with
        | Some (String c s) => String.eqb (Invoices.status r) (String c s)
        | _ => true
        end in
      let invoices := page_of limit offset
                        (order_by newer (filter wanted (invoices w))) in
      Ok (map (fun invoice =>
                 mapDatabaseToInvoiceResponse w invoice
                   (invoice_line_items w (Invoices.id invoice)))
              invoices,
          w).

(** The number of invoices in one status ([count('* as count')] of a group). *)
Definition count_status (w : World) (s : InvoiceStatus) : Z :=
  Z.of_nat (List.length
              (filter (fun r => String.eqb (Invoices.status r) (InvoiceStatus_value s))
                      (invoices w))).

(** The summary rows of both dashboards: no joins on users, no line items. *)
Definition dashboard_invoice (w : World) (invoice : Invoices.row) : InvoiceResponse.t :=
  {| InvoiceResponse.id := Invoices.id invoice;
     InvoiceResponse.vendorId := Invoices.vendor_id invoice;
     InvoiceResponse.vendorName := joined_vendor_name w (Invoices.vendor_id invoice);
     InvoiceResponse.invoiceNumber := Invoices.invoice_number invoice;
     InvoiceResponse.invoiceDate := Invoices.invoice_date invoice;
     InvoiceResponse.dueDate := Invoices.due_date invoice;
     InvoiceResponse.subtotal := amount_or_undefined (Invoices.subtotal invoice);
     InvoiceResponse.taxAmount := amount_or_undefined (Invoices.tax_amount invoice);
     InvoiceResponse.totalAmount := amount_or_undefined (Invoices.total_amount invoice);
     InvoiceResponse.currency := Invoices.currency invoice;
     InvoiceResponse.status := Invoices.status invoice;
     InvoiceResponse.assignedTo := Invoices.assigned_to invoice;
     InvoiceResponse.approvedBy := Invoices.approved_by invoice;
     InvoiceResponse.filePath := Invoices.file_path invoice;
     InvoiceResponse.extractionConfidence := Invoices.extraction_confidence invoice;
     InvoiceResponse.lineItems := [];
     InvoiceResponse.createdAt := Invoices.created_at invoice;
     InvoiceResponse.updatedAt := Invoices.updated_at invoice |}.

(** The newest [n] invoices in status [s]. *)
Definition newest_in_status (w : World) (s : InvoiceStatus) (n : nat)
  : list InvoiceResponse.t :=
  map (dashboard_invoice w)
      (firstn n
         (order_by newer
            (filter (fun r => String.eqb (Invoices.status r) (InvoiceStatus_value s))
                    (invoices w)))).

Record ClerkDashboardData : Type := {
  clerk_needsReview : Z;
  clerk_processing : Z;
  invoicesProcessed : Z;
  accuracyRate : JS.number;
  avgProcessingTime : JS.number;
  recentActivity : list InvoiceResponse.t
}.

(** [getClerkDashboardDataTransaction(userId)] *)
Definition getClerkDashboardDataTransaction (user : option string)
  : Transaction ClerkDashboardData :=
  fun w =>
    let processed :=
      if is_uuid (string_or user EmptyString)
      then
        Z.of_nat
          (List.length
             (filter
                (fun r =>
                   match Invoices.assigned_to r with
                   | Some a => String.eqb a (string_or user EmptyString)
                   | None => false
                   end
                   && (String.eqb (Invoices.status r) (InvoiceStatus_value APPROVED)
                       || String.eqb (Invoices.status r)
                                     (InvoiceStatus_value AWAITING_APPROVAL)))
                (invoices w)))
      else 0 in
    Ok ({| clerk_needsReview := count_status w NEEDS_REVIEW;
           clerk_processing := count_status w PROCESSING;
           invoicesProcessed := processed;
           accuracyRate := 0.95%float;
           avgProcessingTime := 2.5%float;
           recentActivity := newest_in_status w NEEDS_REVIEW 5 |},
        w).

Record ManagerDashboardData : Type := {
  manager_awaitingApproval : Z;
  manager_processing : Z;
  manager_needsReview : Z;
  totalProcessed : Z;
  avgAccuracyRate : JS.number;
  team_avgProcessingTime : JS.number;
  bottlenecks : list string;
  approvalQueue : list InvoiceResponse.t
}.

(** [getManagerDashboardDataTransaction()] *)
Definition getManagerDashboardDataTransaction
  : Transaction ManagerDashboardData :=
  fun w =>
    Ok ({| manager_awaitingApproval := count_status w AWAITING_APPROVAL;
           manager_processing := count_status w PROCESSING;
           manager_needsReview := count_status w NEEDS_REVIEW;
           totalProcessed :=
             Z.of_nat
               (List.length
                  (filter
                     (fun r =>
                        String.eqb (Invoices.status r) (InvoiceStatus_value APPROVED)
                        || String.eqb (Invoices.status r)
                                      (InvoiceStatus_value REJECTED))
                     (invoices w)));
           avgAccuracyRate := 0.94%float;
           team_avgProcessingTime := 3.2%float;
           bottlenecks := ["Manual review queue"%string];
           approvalQueue := newest_in_status w AWAITING_APPROVAL 10 |},
        w).

(** ** A consistent store *)

(** What the schema keeps true of an invoice row: its status is a value of
    the enumeration and its user references name users. *)
Definition row_consistent (w : World) (r : Invoices.row) : bool :=
  Invoices.status_check (Invoices.status r)
  && reference_ok (user_exists w) (Invoices.assigned_to r)
  && reference_ok (user_exists w) (Invoices.approved_by r).

Definition consistent (w : World) : Prop :=
  forall r, In r (invoices w) -> row_consistent w r = true.



(** ** Further inputs used as examples *)

Module More.

(** Subtotal 1000.00 and tax 80.00 against a total of 1100.00. *)
Definition wrong_total : ExtractedData :=
  {| vendorName := Some "Acme Corp"%string;
     invoiceNumber := "INV-4";
     invoiceDate := Some "2024-01-28"%string;
     dueDate := Some "2024-02-27"%string;
     subtotal := Some 1000.00%float;
     taxAmount := Some 80.00%float;
     totalAmount := Some 1100.00%float;
     currency := Some "USD"%string;
     lineItems := Some [Example.services 1000.00%float] |}.

(** A run in which the database is unreachable when the invoice is
    inserted. *)
Definition env_create_fails : WorkflowEnv :=
  {| save_now := save_now Seed.env;
     extract_now := extract_now Seed.env;
     extract_today := extract_today Seed.env;
     extract_due := extract_due Seed.env;
     database_now := database_now Seed.env;
     invoice_uuid := invoice_uuid Seed.env;
     line_item_uuid := line_item_uuid Seed.env;
     save_file_fault := None;
     create_invoice_fault := Some "connect ECONNREFUSED 127.0.0.1:5432"%string;
     create_line_items_fault := None;
     get_invoice_fault := None |}.

Definition jpg : File :=
  {| originalname := "scan.jpg";
     mimetype := "image/jpg";
     size := 2048;
     buffer := [Byte.xff; Byte.xd8; Byte.xff; Byte.xe0] |}.

Definition exe : File :=
  {| originalname := "invoice.exe";
     mimetype := "application/octet-stream";
     size := 2048;
     buffer := [Byte.x4d; Byte.x5a] |}.

Definition line (key : string) (number : Z) (total : JS.number) : LineItems.row :=
  {| LineItems.id := key;
     LineItems.invoice_id := Invoices.id Seed.needs_review_invoice;
     LineItems.description := "Professional Services";
     LineItems.quantity := 1%float;
     LineItems.unit_price := total;
     LineItems.line_total := total;
     LineItems.product_code := None;
     LineItems.line_number := number;
     LineItems.created_at := 1706400000000;
     LineItems.updated_at := 1706400000000 |}.

(** The seeded store with two line items, stored second line first. *)
Definition world_with_lines : World :=
  with_line_items
    [ line "550e8400-e29b-41d4-a716-446655440052" 2 400.00%float;
      line "550e8400-e29b-41d4-a716-446655440051" 1 600.00%float ]
    Seed.world.




End More.

(* ================================================================== *)
(** * Properties *)
(* ================================================================== *)

(** ** Binary64 facts used by the status decision *)

Lemma related_refl a : related a a.
Proof. right; left; reflexivity. Qed.

Lemma related_or_zero X : related X (sf_or_zero X).
Proof.
  destruct X as [s| s | | s m e]; simpl.
  - right; right; eauto.
  - right; left; reflexivity.
  - left; reflexivity.
  - right; left; reflexivity.
Qed.

Lemma related_abs a b : related a b -> related (SFabs a) (SFabs b).
Proof.
  intros [-> | [-> | (s & t & -> & ->)]].
  - left; reflexivity.
  - apply related_refl.
  - right; right; simpl; eauto.
Qed.

Lemma related_add a a' b b' :
  related a a' -> related b b' -> related (SF64add a b) (SF64add a' b').
Proof.
  unfold SF64add.
  intros [-> | [-> | (s & t & -> & ->)]] [-> | [-> | (u & v & -> & ->)]];
    try (left; reflexivity);
    try (left; destruct a; reflexivity);
    try (left; destruct a'; reflexivity);
    try apply related_refl.
  - destruct a' as [w | w | | w m e]; simpl;
      try (right; left; reflexivity); try (left; reflexivity).
    right; right; destruct w, u, v; simpl; eauto.
  - destruct b' as [w | w | | w m e]; simpl;
      try (right; left; reflexivity); try (left; reflexivity).
    right; right; destruct w, s, t; simpl; eauto.
  - right; right; destruct s, t, u, v; simpl; eauto.
Qed.

Lemma related_sub a a' b b' :
  related a a' -> related b b' -> related (SF64sub a b) (SF64sub a' b').
Proof.
  unfold SF64sub.
  intros [-> | [-> | (s & t & -> & ->)]] [-> | [-> | (u & v & -> & ->)]];
    try (left; reflexivity);
    try (left; destruct a; reflexivity);
    try (left; destruct a'; reflexivity);
    try apply related_refl.
  - destruct a' as [w | w | | w m e]; simpl;
      try (right; left; reflexivity); try (left; reflexivity).
    right; right; destruct w, u, v; simpl; eauto.
  - destruct b' as [w | w | | w m e]; simpl;
      try (right; left; reflexivity); try (left; reflexivity).
    right; right; destruct w, s, t; simpl; eauto.
  - right; right; destruct s, t, u, v; simpl; eauto.
Qed.

Lemma compare_cont_opp m n :
  PosDef.Pos.compare_cont Eq n m = CompOpp (PosDef.Pos.compare_cont Eq m n).
Proof. exact (eq_sym (Pos.compare_cont_antisym m n Eq)). Qed.

Lemma SFcompare_antisym a b :
  SFcompare b a = option_map CompOpp (SFcompare a b).
Proof.
  destruct a as [s | s | | s m e], b as [t | t | | t n f]; simpl;
    try reflexivity;
    try (destruct s; reflexivity);
    try (destruct t; reflexivity);
    try (destruct s, t; reflexivity).
  destruct s, t; simpl; try reflexivity.
  - rewrite (Z.compare_antisym f e).
    destruct (f ?= e)%Z; simpl; try reflexivity.
    now rewrite (compare_cont_opp m n).
  - rewrite (Z.compare_antisym f e).
    destruct (f ?= e)%Z; simpl; try reflexivity.
    now rewrite (compare_cont_opp m n).
Qed.

Lemma SFleb_not_SFltb a b : SFleb a b = true -> SFltb b a = false.
Proof.
  unfold SFleb, SFltb. rewrite (SFcompare_antisym a b).
  destruct (SFcompare a b) as [[ | | ] | ]; simpl; congruence.
Qed.

(** The specification-level value of [x || 0]. *)
Lemma Prim2SF_or_zero (v : float) :
  Prim2SF (JS.or_zero (Some v)) = sf_or_zero (Prim2SF v).
Proof.
  unfold JS.or_zero, JS.truthy, Prim2SF at 2.
  destruct (is_nan v) eqn:Hn; simpl; [reflexivity|].
  destruct (is_zero v) eqn:Hz; simpl; [reflexivity|].
  unfold Prim2SF. rewrite Hn, Hz.
  destruct (is_infinity v); [reflexivity|].
  destruct (Z.frexp v) as [r ex].
  match goal with |- context [shr_fexp ?a ?b ?c ?d ?e] =>
    destruct (shr_fexp a b c d e) as [shr e'] end.
  destruct (shr_m shr); reflexivity.
Qed.

Lemma related_field (x : option float) :
  related (Prim2SF (field_value x)) (Prim2SF (JS.or_zero x)).
Proof.
  destruct x as [v|]; [|apply related_refl].
  rewrite Prim2SF_or_zero. apply related_or_zero.
Qed.

Lemma related_lineItemsTotal d :
  related (Prim2SF (lineTotal_sum d)) (Prim2SF (lineItemsTotal d)).
Proof.
  unfold lineTotal_sum, lineItemsTotal.
  destruct (lineItems d) as [items|]; simpl option_map.
  - rewrite Prim2SF_or_zero. apply related_or_zero.
  - apply related_refl.
Qed.

Lemma related_subtotalDiff d :
  related
    (Prim2SF (abs (lineTotal_sum d - field_value (subtotal d))))
    (Prim2SF (subtotalDiff d)).
Proof.
  unfold subtotalDiff. rewrite !abs_spec, !sub_spec.
  apply related_abs, related_sub.
  - apply related_lineItemsTotal.
  - apply related_field.
Qed.

Lemma related_totalDiff d :
  related
    (Prim2SF (abs (field_value (subtotal d) + field_value (taxAmount d)
                   - field_value (totalAmount d))))
    (Prim2SF (totalDiff d)).
Proof.
  unfold totalDiff. rewrite !abs_spec, !sub_spec, !add_spec.
  apply related_abs, related_sub; [apply related_add|]; apply related_field.
Qed.

Lemma Prim2SF_MATH_TOLERANCE :
  exists m e, Prim2SF BUSINESS_RULES.MATH_TOLERANCE = S754_finite false m e.
Proof. eexists _, _. vm_compute. reflexivity. Qed.

(** A gap the claim calls greater than the tolerance is greater than the
    tolerance for the code. *)
Lemma gt_tolerance_related (a b : float) :
  related (Prim2SF a) (Prim2SF b) ->
  JS.gt a BUSINESS_RULES.MATH_TOLERANCE = true ->
  JS.gt b BUSINESS_RULES.MATH_TOLERANCE = true.
Proof.
  unfold JS.gt. rewrite !ltb_spec.
  destruct Prim2SF_MATH_TOLERANCE as (m & e & ->).
  intros [-> | [-> | (s & t & -> & ->)]]; cbv [SFltb SFcompare]; congruence.
Qed.

(** A gap the claim calls within the tolerance is not greater than the
    tolerance for the code. *)
Lemma le_tolerance_related (a b : float) :
  related (Prim2SF a) (Prim2SF b) ->
  JS.le a BUSINESS_RULES.MATH_TOLERANCE = true ->
  JS.gt b BUSINESS_RULES.MATH_TOLERANCE = false.
Proof.
  unfold JS.gt, JS.le. rewrite leb_spec, ltb_spec.
  intros [-> | [<- | (s & t & -> & ->)]].
  - cbv [SFleb SFcompare]. discriminate.
  - apply SFleb_not_SFltb.
  - intros _. destruct Prim2SF_MATH_TOLERANCE as (m & e & ->). reflexivity.
Qed.

Lemma compare_cont_spec m n :
  CompareSpec (m = n) (m < n)%positive (n < m)%positive
              (PosDef.Pos.compare_cont Eq m n).
Proof. exact (Pos.compare_spec m n). Qed.

(** Finite positive binary64 values with equal exponents are ordered by
    their mantissas; with different exponents, by the exponents. *)
Lemma finite_order (ma mb m : positive) (ex e : Z) :
  (mb < ma)%positive ->
  SFleb (S754_finite false ma ex) (S754_finite false m e) = true ->
  SFltb (S754_finite false m e) (S754_finite false mb ex) = false.
Proof.
  intros Hlt. cbv [SFleb SFltb SFcompare].
  rewrite (Z.compare_antisym e ex).
  destruct (e ?= ex); cbv [CompOpp]; try discriminate; try reflexivity.
  destruct (compare_cont_spec ma m) as [Hm | Hm | Hm]; try discriminate; intros _.
  - subst m. destruct (compare_cont_spec ma mb); try reflexivity; lia.
  - destruct (compare_cont_spec m mb); try reflexivity; lia.
Qed.

Lemma auto_approval_not_low (c : float) :
  JS.ge c BUSINESS_RULES.CONFIDENCE_THRESHOLD_AUTO_APPROVAL = true ->
  JS.lt c BUSINESS_RULES.LOW_CONFIDENCE_THRESHOLD = false.
Proof.
  unfold JS.ge, JS.lt. rewrite leb_spec, ltb_spec.
  assert (E95 : Prim2SF BUSINESS_RULES.CONFIDENCE_THRESHOLD_AUTO_APPROVAL
                = S754_finite false 8556839292003942 (-53))
    by (vm_compute; reflexivity).
  assert (E75 : Prim2SF BUSINESS_RULES.LOW_CONFIDENCE_THRESHOLD
                = S754_finite false 6755399441055744 (-53))
    by (vm_compute; reflexivity).
  rewrite E95, E75. clear E95 E75.
  destruct (Prim2SF c) as [s | s | | s m e].
  - discriminate.
  - destruct s; [discriminate | reflexivity].
  - discriminate.
  - destruct s; [discriminate|].
    apply finite_order. vm_compute. reflexivity.
Qed.

(** ** The invoices table under an update *)

Lemma apply_update_id u r : Invoices.id (apply_update u r) = Invoices.id r.
Proof.
  unfold apply_update.
  destruct (set_status u), (set_assigned_to u), (set_approved_by u); reflexivity.
Qed.

Lemma apply_update_status s a b r :
  Invoices.status
    (apply_update {| set_status := Some s; set_assigned_to := a;
                     set_approved_by := b |} r) = s.
Proof. unfold apply_update; simpl. destruct a, b; reflexivity. Qed.

(** An update whose written row satisfies the constraints rewrites exactly
    the rows that carry the identifier. *)
Lemma update_rows_accepted w invoiceId u rows :
  (forall r, In r rows -> Invoices.id r = invoiceId ->
             update_violation w u (apply_update u r) = None) ->
  update_rows w invoiceId u rows
  = Ok (map (fun r => if String.eqb (Invoices.id r) invoiceId
                      then apply_update u r else r) rows).
Proof.
  induction rows as [|r rest IH]; intros Hok; simpl; [reflexivity|].
  rewrite IH by (intros r' Hin; apply Hok; right; exact Hin).
  destruct (String.eqb (Invoices.id r) invoiceId) eqn:E; [|reflexivity].
  rewrite (Hok r (or_introl eq_refl)) by (apply String.eqb_eq; exact E).
  reflexivity.
Qed.

(** An update whose written row breaks a constraint throws as soon as a row
    carries the identifier. *)
Lemma update_rows_refused w invoiceId u rows message :
  (forall r, update_violation w u (apply_update u r) = Some message) ->
  existsb (fun r => String.eqb (Invoices.id r) invoiceId) rows = true ->
  update_rows w invoiceId u rows = Throw message.
Proof.
  intros Hbad. induction rows as [|r rest IH]; simpl; [discriminate|].
  destruct (String.eqb (Invoices.id r) invoiceId); simpl.
  - intros _. rewrite Hbad. reflexivity.
  - intros H. rewrite (IH H). reflexivity.
Qed.

Lemma find_some_existsb {A : Type} (p : A -> bool) (l : list A) (x : A) :
  find p l = Some x -> existsb p l = true.
Proof.
  induction l as [|y l IH]; simpl; [discriminate|].
  destruct (p y); [reflexivity|]. exact IH.
Qed.

Lemma find_map_update invoiceId (f : Invoices.row -> Invoices.row) rows inv :
  (forall r, Invoices.id (f r) = Invoices.id r) ->
  find (fun r => String.eqb (Invoices.id r) invoiceId) rows = Some inv ->
  find (fun r => String.eqb (Invoices.id r) invoiceId)
       (map (fun r => if String.eqb (Invoices.id r) invoiceId then f r else r) rows)
  = Some (f inv).
Proof.
  intros Hid. induction rows as [|r rest IH]; simpl; [discriminate|].
  destruct (String.eqb (Invoices.id r) invoiceId) eqn:E.
  - intros [= ->]. rewrite Hid, E. reflexivity.
  - rewrite E. exact IH.
Qed.

Lemma first_invoice_exists w invoiceId inv :
  first_invoice w invoiceId = Some inv -> invoice_exists w invoiceId = true.
Proof. apply find_some_existsb. Qed.

Lemma is_uuid_string_or (u : string) :
  is_uuid u = true -> string_or (Some u) EmptyString = u.
Proof. destruct u; [discriminate | reflexivity]. Qed.

Lemma In_user_exists w u : In u (users w) -> user_exists w (Users.id u) = true.
Proof.
  intros Hin. apply existsb_exists. exists u. split; [exact Hin|].
  apply String.eqb_refl.
Qed.

(** ** Reading and updating one invoice *)

Lemma get_invoice_found w invoiceId inv :
  first_invoice w invoiceId = Some inv ->
  transaction (getInvoiceByIdTransaction invoiceId) w
  = (Ok (Some (mapDatabaseToInvoiceResponse w inv (line_items_of w invoiceId))), w).
Proof.
  intros H. unfold transaction, getInvoiceByIdTransaction. rewrite H. reflexivity.
Qed.

Lemma update_status_commits w invoiceId s a b :
  Invoices.status_check s = true ->
  reference_ok (user_exists w) a = true ->
  reference_ok (user_exists w) b = true ->
  transaction (updateInvoiceStatusTransaction invoiceId s a b) w
  = (Ok tt,
     updated_invoices invoiceId
       {| set_status := Some s; set_assigned_to := a; set_approved_by := b |} w).
Proof.
  intros Hs Ha Hb.
  unfold transaction, updateInvoiceStatusTransaction, update_invoices.
  rewrite update_rows_accepted; [reflexivity|].
  intros r _ _. unfold update_violation.
  rewrite apply_update_status, Hs. simpl. rewrite Ha, Hb. reflexivity.
Qed.

Lemma first_invoice_updated w invoiceId u inv :
  first_invoice w invoiceId = Some inv ->
  first_invoice (updated_invoices invoiceId u w) invoiceId
  = Some (apply_update u inv).
Proof.
  intros H. unfold first_invoice, updated_invoices; simpl.
  apply find_map_update; [apply apply_update_id | exact H].
Qed.

Lemma joined_user_id_found w u :
  user_exists w u = true -> joined_user_id w (Some u) = Some u.
Proof.
  unfold user_exists, joined_user_id; simpl.
  induction (users w) as [|r rest IH]; simpl; [discriminate|].
  destruct (String.eqb (Users.id r) u) eqn:E; simpl.
  - intros _. apply String.eqb_eq in E. rewrite E. reflexivity.
  - exact IH.
Qed.

(** ** The approve, reject and delete actions *)

(** Whatever the request, approving an invoice in [needs_review] writes
    nothing and answers with a failure. *)
Lemma approve_needs_review_writes_nothing
      (penv : ProcessEnv) (w : World) (invoiceId : string)
      (x_user_id : option string) (req_body : option ApprovalRequest)
      (inv : Invoices.row) :
  first_invoice w invoiceId = Some inv ->
  Invoices.status inv = InvoiceStatus_value NEEDS_REVIEW ->
  snd (post_invoices_approve penv invoiceId x_user_id req_body w) = w
  /\ exists error,
      body (fst (post_invoices_approve penv invoiceId x_user_id req_body w))
      = Some (Failure error).
Proof.
  intros Hfind Hstatus.
  unfold post_invoices_approve, try_catch.
  destruct req_body as [request|]; [|failure_answer].
  destruct (is_uuid (string_or x_user_id EmptyString)); simpl; [|failure_answer].
  unfold bind. rewrite (get_invoice_found _ _ _ Hfind). simpl.
  rewrite Hstatus. failure_answer.
Qed.

(** C7. For every invoice whose status is [needs_review], an approve call
    (with a request body and a well-formed user id) fails with
    [INVALID_STATUS_TRANSITION] and leaves the store, hence the row, as it
    was: [status] and [approved_by] keep their values. *)
Theorem approve_needs_review_is_invalid_transition
        (penv : ProcessEnv) (w : World) (invoiceId currentUserId : string)
        (request : ApprovalRequest) (inv : Invoices.row) :
  first_invoice w invoiceId = Some inv ->
  Invoices.status inv = InvoiceStatus_value NEEDS_REVIEW ->
  is_uuid currentUserId = true ->
  let outcome :=
    post_invoices_approve penv invoiceId (Some currentUserId) (Some request) w in
  fst outcome
  = json 400 (createErrorResponse ERROR_CODES.INVALID_STATUS_TRANSITION
                "Invoice is not awaiting approval." None)
  /\ snd outcome = w
  /\ exists inv',
      first_invoice (snd outcome) invoiceId = Some inv'
      /\ inv' = inv
      /\ Invoices.status inv' = Invoices.status inv
      /\ Invoices.approved_by inv' = Invoices.approved_by inv.
Proof.
  intros Hfind Hstatus Huuid. simpl.
  assert (E : post_invoices_approve penv invoiceId (Some currentUserId)
                (Some request) w
              = (json 400 (createErrorResponse ERROR_CODES.INVALID_STATUS_TRANSITION
                             "Invoice is not awaiting approval." None), w)).
  { unfold post_invoices_approve, try_catch.
    rewrite (is_uuid_string_or _ Huuid), Huuid. simpl.
    unfold bind. rewrite (get_invoice_found _ _ _ Hfind). simpl.
    rewrite Hstatus. reflexivity. }
  rewrite E. simpl. repeat split. exists inv. auto.
Qed.

(** C1, what the code does.  The approve action never reads the role of the
    actor: a user whose role is [finance_clerk] approves an invoice that is
    [awaiting_approval]; the answer is 200 and the row is written with
    [status = approved] and [approved_by] the clerk. *)
Theorem approve_by_finance_clerk_succeeds
        (penv : ProcessEnv) (w : World) (invoiceId : string)
        (request : ApprovalRequest) (inv : Invoices.row) (actor : Users.row) :
  In actor (users w) ->
  Users.role actor = FINANCE_CLERK ->
  is_uuid (Users.id actor) = true ->
  first_invoice w invoiceId = Some inv ->
  Invoices.status inv = InvoiceStatus_value AWAITING_APPROVAL ->
  let outcome :=
    post_invoices_approve penv invoiceId (Some (Users.id actor)) (Some request) w in
  http_status (fst outcome) = 200
  /\ (exists data,
         body (fst outcome) = Some (Success (Some data))
         /\ InvoiceResponse.status data = InvoiceStatus_value APPROVED
         /\ InvoiceResponse.approvedBy data = Some (Users.id actor))
  /\ first_invoice (snd outcome) invoiceId
     = Some (Invoices.set_approved_by (Users.id actor)
               (Invoices.set_status (InvoiceStatus_value APPROVED) inv)).
Proof.
  intros Hin _ Huuid Hfind Hstatus. simpl.
  pose proof (In_user_exists _ _ Hin) as Hexists.
  unfold post_invoices_approve, try_catch.
  rewrite (is_uuid_string_or _ Huuid), Huuid. simpl.
  unfold bind. rewrite (get_invoice_found _ _ _ Hfind). simpl.
  rewrite Hstatus. simpl.
  rewrite update_status_commits by (try reflexivity; exact Hexists).
  erewrite get_invoice_found by (apply first_invoice_updated; exact Hfind).
  simpl. split; [reflexivity|]. split.
  - eexists. split; [reflexivity|]. simpl. split; [reflexivity|].
    apply joined_user_id_found. exact Hexists.
  - rewrite (first_invoice_updated _ _ _ _ Hfind). reflexivity.
Qed.

(** C3, what the code does.  The reject action never reads the status: for
    an invoice in any status, a reject call with a reason answers 200 and
    writes [status = rejected]. *)
Theorem reject_from_any_status_succeeds
        (penv : ProcessEnv) (w : World) (invoiceId : string)
        (request : RejectionRequest) (why : string) (inv : Invoices.row) :
  reason request = Some why ->
  why <> EmptyString ->
  first_invoice w invoiceId = Some inv ->
  let outcome := post_invoices_reject penv invoiceId (Some request) w in
  http_status (fst outcome) = 200
  /\ (exists data,
         body (fst outcome) = Some (Success (Some data))
         /\ InvoiceResponse.status data = InvoiceStatus_value REJECTED)
  /\ first_invoice (snd outcome) invoiceId
     = Some (Invoices.set_status (InvoiceStatus_value REJECTED) inv).
Proof.
  intros Hreason Hwhy Hfind. simpl.
  unfold post_invoices_reject, try_catch. rewrite Hreason.
  destruct why as [|c why]; [contradiction|]. simpl.
  unfold bind. rewrite (get_invoice_found _ _ _ Hfind). simpl.
  rewrite update_status_commits by reflexivity.
  erewrite get_invoice_found by (apply first_invoice_updated; exact Hfind).
  simpl. split; [reflexivity|]. split.
  - eexists. split; reflexivity.
  - rewrite (first_invoice_updated _ _ _ _ Hfind). reflexivity.
Qed.

(** The value that the delete transaction writes is not a value of the
    status enumeration, neither of the column nor of [InvoiceStatus]. *)
Lemma deleted_not_in_enum :
  Invoices.status_check "deleted" = false
  /\ forall s : InvoiceStatus, InvoiceStatus_value s <> "deleted"%string.
Proof. split; [reflexivity|]. intros s; destruct s; discriminate. Qed.

(** C4, what the code does.  Deleting an existing invoice writes a status
    that the column refuses: the transaction throws, the answer is 500 and
    the store is left as it was, so the row keeps its status. *)
Theorem delete_existing_invoice_is_refused
        (penv : ProcessEnv) (w : World) (invoiceId : string) (inv : Invoices.row) :
  first_invoice w invoiceId = Some inv ->
  let outcome := delete_invoice penv invoiceId w in
  fst outcome
  = json 500 (createErrorResponse "INTERNAL_ERROR"
                "An internal server error occurred."
                (development_details penv
                   "new row for relation invoices violates check constraint invoices_status_check"))
  /\ snd outcome = w
  /\ first_invoice (snd outcome) invoiceId = Some inv.
Proof.
  intros Hfind. simpl.
  assert (E : delete_invoice penv invoiceId w
              = (json 500 (createErrorResponse "INTERNAL_ERROR"
                "An internal server error occurred."
                (development_details penv
                   "new row for relation invoices violates check constraint invoices_status_check")), w)).
  { unfold delete_invoice, try_catch, bind.
    rewrite (get_invoice_found _ _ _ Hfind).
    unfold transaction, deleteInvoiceTransaction, update_invoices.
    rewrite (update_rows_refused w invoiceId _ (invoices w)
               "new row for relation invoices violates check constraint invoices_status_check").
    - reflexivity.
    - intros r. unfold update_violation. rewrite apply_update_status. reflexivity.
    - exact (first_invoice_exists _ _ _ Hfind). }
  rewrite E. simpl. auto.
Qed.

(** ** The status decision *)

(** C5. Whenever the line-item totals do not reconcile with the subtotal,
    that is [|sum of lineTotal - subtotal| > 0.01], the decision is
    [needs_review], whatever the overall confidence. *)
Theorem unreconciled_line_items_need_review
        (extractedData : ExtractedData) (confidence : ExtractionConfidence) :
  JS.gt (abs (lineTotal_sum extractedData
              - field_value (subtotal extractedData)))
        BUSINESS_RULES.MATH_TOLERANCE = true ->
  validateBusinessRulesStep extractedData confidence = NEEDS_REVIEW.
Proof.
  intros Hgap. unfold validateBusinessRulesStep.
  destruct (JS.lt (overallConfidence confidence)
                  BUSINESS_RULES.LOW_CONFIDENCE_THRESHOLD); [reflexivity|].
  rewrite (gt_tolerance_related _ _ (related_subtotalDiff extractedData) Hgap).
  reflexivity.
Qed.

(** C6. With an overall confidence of exactly 0.95 and both differences
    within the tolerance of 0.01, the decision is [awaiting_approval]. *)
Theorem confidence_at_threshold_awaits_approval
        (extractedData : ExtractedData) (confidence : ExtractionConfidence) :
  overallConfidence confidence = 0.95%float ->
  JS.le (abs (lineTotal_sum extractedData
              - field_value (subtotal extractedData)))
        BUSINESS_RULES.MATH_TOLERANCE = true ->
  JS.le (abs (field_value (subtotal extractedData)
              + field_value (taxAmount extractedData)
              - field_value (totalAmount extractedData)))
        BUSINESS_RULES.MATH_TOLERANCE = true ->
  validateBusinessRulesStep extractedData confidence = AWAITING_APPROVAL.
Proof.
  intros Hconf Hsub Htotal. unfold validateBusinessRulesStep.
  rewrite Hconf.
  rewrite (le_tolerance_related _ _ (related_subtotalDiff extractedData) Hsub).
  rewrite (le_tolerance_related _ _ (related_totalDiff extractedData) Htotal).
  reflexivity.
Qed.

(** C10. Without line items (absent or empty) and without subtotal, tax and
    total, both differences are 0 and the decision follows the overall
    confidence alone: [awaiting_approval] from 0.95 on, [needs_review]
    otherwise. *)
Theorem absent_amounts_decided_by_confidence
        (extractedData : ExtractedData) (confidence : ExtractionConfidence) :
  lineItems extractedData = None \/ lineItems extractedData = Some [] ->
  subtotal extractedData = None ->
  taxAmount extractedData = None ->
  totalAmount extractedData = None ->
  subtotalDiff extractedData = 0%float
  /\ totalDiff extractedData = 0%float
  /\ validateBusinessRulesStep extractedData confidence
     = if JS.ge (overallConfidence confidence)
                BUSINESS_RULES.CONFIDENCE_THRESHOLD_AUTO_APPROVAL
       then AWAITING_APPROVAL
       else NEEDS_REVIEW.
Proof.
  intros Hitems Hsub Htax Htotal.
  assert (Hs : subtotalDiff extractedData = 0%float).
  { unfold subtotalDiff, lineItemsTotal. rewrite Hsub.
    destruct Hitems as [-> | ->]; reflexivity. }
  assert (Ht : totalDiff extractedData = 0%float).
  { unfold totalDiff. rewrite Hsub, Htax, Htotal. reflexivity. }
  split; [exact Hs|]. split; [exact Ht|].
  unfold validateBusinessRulesStep. rewrite Hs, Ht.
  change (JS.gt 0%float BUSINESS_RULES.MATH_TOLERANCE) with false. simpl.
  destruct (JS.ge (overallConfidence confidence)
                  BUSINESS_RULES.CONFIDENCE_THRESHOLD_AUTO_APPROVAL) eqn:Hge.
  - rewrite (auto_approval_not_low _ Hge). reflexivity.
  - destruct (JS.lt _ _); reflexivity.
Qed.

(** ** One run of the workflow *)

Lemma with_fault_read_only fault invoiceId w r w' :
  with_fault fault (getInvoiceByIdTransaction invoiceId) w = Ok (r, w') -> w' = w.
Proof.
  unfold with_fault, getInvoiceByIdTransaction.
  destruct fault; [discriminate|].
  destruct (first_invoice w invoiceId); intros [= _ <-]; reflexivity.
Qed.

(** The workflow, step by step. *)
Lemma workflow_steps penv env fileData w :
  invoiceProcessingWorkflow penv env fileData w
  = match validateFileStep fileData with
    | Throw message => (Throw message, w)
    | Ok _ =>
        match save_file_fault env with
        | Some message => (Throw message, w)
        | None =>
            let w1 := saved penv env fileData w in
            match with_fault (create_invoice_fault env)
                    (createInvoiceTransaction (invoice_uuid env) (database_now env)
                       (submitted_invoice penv env fileData)) w1 with
            | Throw message => (Throw message, w1)
            | Ok (invoiceId, w2) =>
                match with_fault (create_line_items_fault env)
                        (createLineItemsTransaction (line_item_uuid env)
                           (database_now env) invoiceId
                           (submitted_line_items penv env fileData)) w2 with
                | Throw message => (Throw message, w2)
                | Ok (_, w3) =>
                    match with_fault (get_invoice_fault env)
                            (getInvoiceByIdTransaction invoiceId) w3 with
                    | Throw message => (Throw message, w3)
                    | Ok (None, _) =>
                        (Throw "Failed to retrieve created invoice", w3)
                    | Ok (Some invoice, _) => (Ok invoice, w3)
                    end
                end
            end
        end
    end.
Proof.
  unfold invoiceProcessingWorkflow, bind, lift.
  destruct (validateFileStep fileData) as [[]|message]; [|reflexivity].
  unfold saveFileStep.
  destruct (save_file_fault env) as [message|]; [reflexivity|].
  fold (stored_path penv env fileData). fold (saved penv env fileData w).
  cbv zeta.
  change (extractInvoiceDataStep env (stored_path penv env fileData))
    with (fst (extractInvoiceDataStep env (stored_path penv env fileData)),
          snd (extractInvoiceDataStep env (stored_path penv env fileData))).
  cbv iota.
  fold (submitted_invoice penv env fileData).
  unfold transaction at 1.
  destruct (with_fault (create_invoice_fault env) _ _)
    as [[invoiceId w2]|message]; [|reflexivity].
  change (nonempty_lineItems _) with
    (Some (submitted_line_items penv env fileData)).
  unfold transaction at 1.
  destruct (with_fault (create_line_items_fault env) _ _)
    as [[[] w3]|message]; [|reflexivity].
  unfold transaction.
  destruct (with_fault (get_invoice_fault env) _ _)
    as [[invoice w4]|message] eqn:Hget; [|reflexivity].
  apply with_fault_read_only in Hget. subst w4.
  destruct invoice; reflexivity.
Qed.

Lemma mock_decision penv env fileData :
  InvoiceData.status (submitted_invoice penv env fileData) = NEEDS_REVIEW.
Proof. reflexivity. Qed.

Lemma inserted_invoice_status penv env fileData :
  Invoices.status (inserted_invoice penv env fileData)
  = InvoiceStatus_value NEEDS_REVIEW.
Proof. reflexivity. Qed.

(** The create-invoice transaction throws, or commits exactly one row. *)
Lemma create_invoice_outcome penv env fileData w :
  (exists message,
      with_fault (create_invoice_fault env)
        (createInvoiceTransaction (invoice_uuid env) (database_now env)
           (submitted_invoice penv env fileData)) w = Throw message)
  \/ (create_invoice_fault env = None
      /\ invoice_exists w (invoice_uuid env) = false
      /\ with_fault (create_invoice_fault env)
           (createInvoiceTransaction (invoice_uuid env) (database_now env)
              (submitted_invoice penv env fileData)) w
         = Ok (invoice_uuid env,
               with_invoices (invoices w ++ [inserted_invoice penv env fileData]) w)).
Proof.
  unfold with_fault, createInvoiceTransaction.
  destruct (create_invoice_fault env) as [message|]; [left; eauto|].
  destruct (invoice_exists w (invoice_uuid env)); [left; eauto|].
  right. repeat split.
Qed.

(** The create-line-items transaction throws, or commits all the rows. *)
Lemma create_line_items_outcome penv env fileData w :
  (exists message,
      with_fault (create_line_items_fault env)
        (createLineItemsTransaction (line_item_uuid env) (database_now env)
           (invoice_uuid env) (submitted_line_items penv env fileData)) w
      = Throw message)
  \/ (create_line_items_fault env = None
      /\ with_fault (create_line_items_fault env)
           (createLineItemsTransaction (line_item_uuid env) (database_now env)
              (invoice_uuid env) (submitted_line_items penv env fileData)) w
         = Ok (tt, with_line_items
                     (line_items w ++ inserted_line_items penv env fileData) w)).
Proof.
  unfold with_fault.
  destruct (create_line_items_fault env) as [message|]; [left; eauto|].
  unfold createLineItemsTransaction, inserted_line_items.
  change (submitted_line_items penv env fileData)
    with [ {| description := "Professional Services";
              quantity := 1%float; unitPrice := 1000.00%float;
              lineTotal := 1000.00%float; productCode := None;
              lineNumber := 1 |} ].
  cbv iota beta zeta.
  destruct (negb (fresh_keys _ _)); [left; eauto|].
  destruct (negb (invoice_exists w (invoice_uuid env))); [left; eauto|].
  right. split; reflexivity.
Qed.

(** What a run leaves in the two tables and in the upload directory. *)
Lemma workflow_tables penv env fileData w :
  let outcome := invoiceProcessingWorkflow penv env fileData w in
  let w' := snd outcome in
  (invoices w' = invoices w /\ line_items w' = line_items w
   /\ exists message, fst outcome = Throw message)
  \/ (invoices w' = invoices w ++ [inserted_invoice penv env fileData]
      /\ line_items w' = line_items w
      /\ exists message, fst outcome = Throw message)
  \/ (invoices w' = invoices w ++ [inserted_invoice penv env fileData]
      /\ line_items w' = line_items w ++ inserted_line_items penv env fileData).
Proof.
  cbv zeta. rewrite workflow_steps.
  destruct (validateFileStep fileData) as [[]|message]; [|left; simpl; eauto].
  destruct (save_file_fault env) as [message|]; [left; simpl; eauto|].
  cbv zeta.
  destruct (create_invoice_outcome penv env fileData (saved penv env fileData w))
    as [[message ->] | (_ & _ & ->)]; [left; simpl; eauto|].
  match goal with
  | |- context [with_fault (create_line_items_fault env) _ ?w2] =>
      destruct (create_line_items_outcome penv env fileData w2)
        as [[message ->] | (_ & ->)]
  end; [right; left; simpl; eauto|].
  right; right.
  destruct (with_fault (get_invoice_fault env) _ _) as [[[invoice|] w4]|message];
    simpl; auto.
Qed.

Lemma create_invoice_commits penv env fileData w :
  create_invoice_fault env = None ->
  invoice_exists w (invoice_uuid env) = false ->
  with_fault (create_invoice_fault env)
    (createInvoiceTransaction (invoice_uuid env) (database_now env)
       (submitted_invoice penv env fileData)) (saved penv env fileData w)
  = Ok (invoice_uuid env,
        with_invoices (invoices w ++ [inserted_invoice penv env fileData])
                      (saved penv env fileData w)).
Proof.
  intros Hfault Hfresh.
  destruct (create_invoice_outcome penv env fileData (saved penv env fileData w))
    as [[message H] | (_ & _ & H)]; [|exact H].
  unfold with_fault, createInvoiceTransaction in H. rewrite Hfault in H.
  change (invoice_exists (saved penv env fileData w) (invoice_uuid env))
    with (invoice_exists w (invoice_uuid env)) in H.
  rewrite Hfresh in H. discriminate.
Qed.

Lemma find_app_fresh {A : Type} (p : A -> bool) (l : list A) (x : A) :
  existsb p l = false -> p x = true -> find p (l ++ [x]) = Some x.
Proof.
  induction l as [|y l IH]; simpl; intros Hl Hx.
  - rewrite Hx. reflexivity.
  - destruct (p y); [discriminate|]. apply IH; assumption.
Qed.

Lemma find_app_found {A : Type} (p : A -> bool) (l l' : list A) (x : A) :
  find p l = Some x -> find p (l ++ l') = Some x.
Proof.
  induction l as [|y l IH]; simpl; [discriminate|].
  destruct (p y); [trivial | exact IH].
Qed.

(** After the create-invoice transaction committed, the new invoice is the
    row found under its identifier, whatever the later steps do. *)
Lemma created_invoice_stays penv env fileData w :
  validateFileStep fileData = Ok tt ->
  save_file_fault env = None ->
  create_invoice_fault env = None ->
  invoice_exists w (invoice_uuid env) = false ->
  invoices (snd (invoiceProcessingWorkflow penv env fileData w))
  = invoices w ++ [inserted_invoice penv env fileData].
Proof.
  intros Hvalid Hsave Hfault Hfresh.
  rewrite workflow_steps, Hvalid, Hsave. cbv zeta.
  rewrite (create_invoice_commits penv env fileData w Hfault Hfresh).
  match goal with
  | |- context [with_fault (create_line_items_fault env) _ ?w2] =>
      destruct (create_line_items_outcome penv env fileData w2)
        as [[message ->] | (_ & ->)]
  end; [reflexivity|].
  destruct (with_fault (get_invoice_fault env) _ _) as [[[invoice|] w4]|message];
    reflexivity.
Qed.

(** C9. For every upload that passes file validation, the mock extraction
    returns an overall confidence of 0.93 with consistent amounts (one line
    of 1000.00, subtotal 1000.00, tax 80.00, total 1080.00); the decision
    passes the low-confidence and the arithmetic checks, stays below the
    0.95 threshold and is [needs_review]; and the invoice that the workflow
    creates is in status [needs_review]. *)
Theorem upload_is_created_in_needs_review
        (penv : ProcessEnv) (env : WorkflowEnv) (fileData : File) (w : World) :
  validateFileStep fileData = Ok tt ->
  save_file_fault env = None ->
  create_invoice_fault env = None ->
  invoice_exists w (invoice_uuid env) = false ->
  let extraction := extractInvoiceDataStep env (stored_path penv env fileData) in
  let extractedData := fst extraction in
  let confidence := snd extraction in
  (overallConfidence confidence = 0.93%float
   /\ subtotal extractedData = Some 1000.00%float
   /\ taxAmount extractedData = Some 80.00%float
   /\ totalAmount extractedData = Some 1080.00%float
   /\ exists item, lineItems extractedData = Some [item]
                   /\ lineTotal item = 1000.00%float)
  /\ (JS.lt (overallConfidence confidence)
            BUSINESS_RULES.LOW_CONFIDENCE_THRESHOLD = false
      /\ JS.gt (subtotalDiff extractedData) BUSINESS_RULES.MATH_TOLERANCE = false
      /\ JS.gt (totalDiff extractedData) BUSINESS_RULES.MATH_TOLERANCE = false
      /\ JS.ge (overallConfidence confidence)
               BUSINESS_RULES.CONFIDENCE_THRESHOLD_AUTO_APPROVAL = false
      /\ validateBusinessRulesStep extractedData confidence = NEEDS_REVIEW)
  /\ exists created,
      first_invoice (snd (invoiceProcessingWorkflow penv env fileData w))
                    (invoice_uuid env) = Some created
      /\ Invoices.status created = InvoiceStatus_value NEEDS_REVIEW.
Proof.
  intros Hvalid Hsave Hfault Hfresh. cbv zeta.
  split; [|split].
  - repeat split. eexists. split; reflexivity.
  - repeat split.
  - exists (inserted_invoice penv env fileData). split; [|reflexivity].
    unfold first_invoice.
    rewrite (created_invoice_stays penv env fileData w Hvalid Hsave Hfault Hfresh).
    apply find_app_fresh; [exact Hfresh | apply String.eqb_refl].
Qed.

(** C2, as stated, fails: when the connection is lost while the line items
    are inserted, the run leaves the invoice row without its line item. *)
Lemma all_or_nothing_fails :
  ~ all_or_nothing Seed.penv Seed.env_line_items_fail (Seed.pdf 2048) Seed.world.
Proof.
  unfold all_or_nothing. cbv zeta.
  assert (E : line_items (snd (invoiceProcessingWorkflow Seed.penv
                Seed.env_line_items_fail (Seed.pdf 2048) Seed.world)) = [])
    by (vm_compute; reflexivity).
  assert (F : List.length (invoices (snd (invoiceProcessingWorkflow Seed.penv
                Seed.env_line_items_fail (Seed.pdf 2048) Seed.world))) = 4%nat)
    by (vm_compute; reflexivity).
  intros [[_ H] | [H _]].
  - destruct (H (Example.services 1000.00%float)) as (row & Hin & _).
    + left; reflexivity.
    + rewrite E in Hin. exact Hin.
  - rewrite H in F. discriminate F.
Qed.

(** C2, amended.  The two persistence transactions are each all-or-nothing
    and are separate: a run persists nothing, or the invoice row alone, or
    the invoice row with all its line items; when create-line-items fails
    after create-invoice committed, the workflow fails, the invoice row
    stays and no line item is persisted. *)
Theorem transactions_are_separately_atomic
        (penv : ProcessEnv) (env : WorkflowEnv) (fileData : File) (w : World) :
  let outcome := invoiceProcessingWorkflow penv env fileData w in
  let w' := snd outcome in
  ((invoices w' = invoices w /\ line_items w' = line_items w)
   \/ (invoices w' = invoices w ++ [inserted_invoice penv env fileData]
       /\ line_items w' = line_items w)
   \/ (invoices w' = invoices w ++ [inserted_invoice penv env fileData]
       /\ line_items w' = line_items w ++ inserted_line_items penv env fileData))
  /\ (validateFileStep fileData = Ok tt ->
      save_file_fault env = None ->
      create_invoice_fault env = None ->
      invoice_exists w (invoice_uuid env) = false ->
      forall message,
        create_line_items_fault env = Some message ->
        fst outcome = Throw message
        /\ invoices w' = invoices w ++ [inserted_invoice penv env fileData]
        /\ line_items w' = line_items w).
Proof.
  cbv zeta. split.
  - destruct (workflow_tables penv env fileData w)
      as [(Hi & Hl & _) | [(Hi & Hl & _) | (Hi & Hl)]]; auto.
  - intros Hvalid Hsave Hfault Hfresh message Hlines.
    rewrite workflow_steps, Hvalid, Hsave. cbv zeta.
    rewrite (create_invoice_commits penv env fileData w Hfault Hfresh).
    unfold with_fault at 1. rewrite Hlines. simpl. auto.
Qed.

(** ** The upload endpoint *)

Lemma upload_type_accepted (fileData : File) :
  In (mimetype fileData) upload_allowedTypes ->
  existsb (String.eqb (mimetype fileData)) upload_allowedTypes = true
  /\ existsb (String.eqb (mimetype fileData)) allowedTypes = true.
Proof.
  intros Hin. split; apply existsb_exists; exists (mimetype fileData);
    (split; [|apply String.eqb_refl]); [exact Hin|].
  simpl in Hin |- *. tauto.
Qed.

(** Once the file is validated and saved, it stays in the upload directory
    whatever the transactions do. *)
Lemma workflow_files penv env fileData w :
  validateFileStep fileData = Ok tt ->
  save_file_fault env = None ->
  files (snd (invoiceProcessingWorkflow penv env fileData w))
  = (stored_path penv env fileData, buffer fileData) :: files w.
Proof.
  intros Hvalid Hsave. rewrite workflow_steps, Hvalid, Hsave. cbv zeta.
  destruct (create_invoice_outcome penv env fileData (saved penv env fileData w))
    as [[message ->] | (_ & _ & ->)]; [reflexivity|].
  match goal with
  | |- context [with_fault (create_line_items_fault env) _ ?w2] =>
      destruct (create_line_items_outcome penv env fileData w2)
        as [[message ->] | (_ & ->)]
  end; [reflexivity|].
  destruct (with_fault (get_invoice_fault env) _ _) as [[[invoice|] w4]|message];
    reflexivity.
Qed.

(** A run in which nothing fails returns the created invoice. *)
Lemma workflow_returns penv env fileData w :
  validateFileStep fileData = Ok tt ->
  save_file_fault env = None ->
  create_invoice_fault env = None ->
  create_line_items_fault env = None ->
  get_invoice_fault env = None ->
  invoice_exists w (invoice_uuid env) = false ->
  fresh_keys (map LineItems.id (line_items w))
             (inserted_line_items penv env fileData) = true ->
  exists invoice,
    fst (invoiceProcessingWorkflow penv env fileData w) = Ok invoice
    /\ InvoiceResponse.id invoice = invoice_uuid env
    /\ InvoiceResponse.status invoice = InvoiceStatus_value NEEDS_REVIEW.
Proof.
  intros Hvalid Hsave Hcreate Hlines Hget Hfresh Hkeys.
  rewrite workflow_steps, Hvalid, Hsave. cbv zeta.
  rewrite (create_invoice_commits penv env fileData w Hcreate Hfresh).
  match goal with
  | |- context [with_fault (create_line_items_fault env) _ ?w2] =>
      destruct (create_line_items_outcome penv env fileData w2)
        as [[message H] | (_ & ->)]
  end.
  - exfalso. revert H. unfold with_fault. rewrite Hlines.
    unfold createLineItemsTransaction.
    change (submitted_line_items penv env fileData)
      with [ {| description := "Professional Services";
                quantity := 1%float; unitPrice := 1000.00%float;
                lineTotal := 1000.00%float; productCode := None;
                lineNumber := 1 |} ].
    cbv iota beta zeta.
    change (line_item_rows (line_item_uuid env) (database_now env)
              (invoice_uuid env) 0 _)
      with (inserted_line_items penv env fileData).
    change (line_items (with_invoices _ _)) with (line_items w).
    rewrite Hkeys. simpl negb. cbv iota.
    unfold invoice_exists. simpl invoices.
    rewrite existsb_app. simpl. rewrite String.eqb_refl, orb_true_r.
    discriminate.
  - unfold with_fault. rewrite Hget. unfold getInvoiceByIdTransaction.
    unfold first_invoice. simpl invoices.
    rewrite (find_app_fresh _ _ (inserted_invoice penv env fileData));
      [|exact Hfresh | apply String.eqb_refl].
    eexists. split; [reflexivity|]. split; reflexivity.
Qed.

(** C8. The size limit of 10 MiB is inclusive and is enforced before any
    step of the workflow.  An upload of 10,485,760 bytes with an allowed type
    passes the request schema and the validate-file step; once the multipart
    parser delivers it, the workflow goes on to store the file (and the
    answer is 201 when nothing fails).  An upload of 10,485,761 bytes is
    answered 413 [FILE_TOO_LARGE] and leaves the store and the upload
    directory as they were. *)
Theorem file_size_limit_is_inclusive
        (delivers_limit : bool) (penv : ProcessEnv) (env : WorkflowEnv)
        (fileData : File) (metadata : MetadataField) (w : World) :
  In (mimetype fileData) upload_allowedTypes ->
  metadata = NoMetadata \/ (exists m, metadata = ConformingMetadata m) ->
  let outcome :=
    post_invoices_upload delivers_limit penv env (Some fileData) metadata w in
  (size fileData = 10485760 ->
   InvoiceSubmissionSchema fileData metadata = true
   /\ validateFileStep fileData = Ok tt
   /\ (delivers_limit = true ->
       upload_single delivers_limit (Some fileData) = inl (Some fileData)
       /\ (save_file_fault env = None ->
           files (snd outcome)
           = (stored_path penv env fileData, buffer fileData) :: files w)
       /\ (save_file_fault env = None ->
           create_invoice_fault env = None ->
           create_line_items_fault env = None ->
           get_invoice_fault env = None ->
           invoice_exists w (invoice_uuid env) = false ->
           fresh_keys (map LineItems.id (line_items w))
                      (inserted_line_items penv env fileData) = true ->
           http_status (fst outcome) = 201)))
  /\ (size fileData = 10485761 ->
      outcome
      = (json 413 (createErrorResponse ERROR_CODES.FILE_TOO_LARGE
                     "File size exceeds the 10MB limit." None), w)).
Proof.
  intros Htype Hmeta. cbv zeta.
  destruct (upload_type_accepted fileData Htype) as [Hfilter Hstep].
  split; intros Hsize.
  - assert (Hschema : InvoiceSubmissionSchema fileData metadata = true).
    { unfold InvoiceSubmissionSchema. rewrite Hsize.
      destruct Hmeta as [-> | [m ->]]; reflexivity. }
    assert (Hvalid : validateFileStep fileData = Ok tt).
    { unfold validateFileStep. rewrite Hstep, Hsize. reflexivity. }
    split; [exact Hschema|]. split; [exact Hvalid|]. intros ->.
    assert (Hpass : upload_single true (Some fileData) = inl (Some fileData)).
    { unfold upload_single. rewrite Hfilter, Hsize. reflexivity. }
    assert (Hrun : post_invoices_upload true penv env (Some fileData) metadata w
                   = try_catch penv
                       (invoice <- invoiceProcessingWorkflow penv env fileData ;;
                        ret (json 201 (createSuccessResponse (Some invoice)))) w).
    { unfold post_invoices_upload. rewrite Hpass, Hschema.
      destruct Hmeta as [-> | [m ->]]; reflexivity. }
    split; [exact Hpass|]. split.
    + intros Hsave. rewrite Hrun. unfold try_catch, bind.
      pose proof (workflow_files penv env fileData w Hvalid Hsave) as Hfiles.
      destruct (invoiceProcessingWorkflow penv env fileData w) as [[invoice|message] w'];
        exact Hfiles.
    + intros Hsave Hcreate Hlines Hget Hfresh Hkeys. rewrite Hrun.
      destruct (workflow_returns penv env fileData w Hvalid Hsave Hcreate Hlines
                                 Hget Hfresh Hkeys) as (invoice & Hok & _).
      unfold try_catch, bind.
      destruct (invoiceProcessingWorkflow penv env fileData w) as [r w'].
      simpl in Hok. rewrite Hok. reflexivity.
  - unfold post_invoices_upload, upload_single. rewrite Hfilter, Hsize.
    reflexivity.
Qed.

(** ** The theorems at concrete inputs *)

Lemma unreconciled_line_items_need_review_witness :
  validateBusinessRulesStep Example.unreconciled (Example.overall 0.99%float)
  = NEEDS_REVIEW.
Proof.
  apply (unreconciled_line_items_need_review
           Example.unreconciled (Example.overall 0.99%float)).
  reflexivity.
Defined.

Lemma confidence_at_threshold_awaits_approval_witness :
  validateBusinessRulesStep Example.reconciled (Example.overall 0.95%float)
  = AWAITING_APPROVAL.
Proof.
  apply (confidence_at_threshold_awaits_approval
           Example.reconciled (Example.overall 0.95%float));
    reflexivity.
Defined.

Lemma absent_amounts_decided_by_confidence_witness :
  validateBusinessRulesStep Example.no_amounts (Example.overall 0.97%float)
  = AWAITING_APPROVAL
  /\ validateBusinessRulesStep Example.no_amounts (Example.overall 0.80%float)
     = NEEDS_REVIEW.
Proof.
  split.
  - apply (absent_amounts_decided_by_confidence
             Example.no_amounts (Example.overall 0.97%float));
      try reflexivity. left; reflexivity.
  - apply (absent_amounts_decided_by_confidence
             Example.no_amounts (Example.overall 0.80%float));
      try reflexivity. left; reflexivity.
Defined.

Lemma approve_needs_review_is_invalid_transition_witness :
  fst (post_invoices_approve Seed.penv (Invoices.id Seed.needs_review_invoice)
         (Some (Users.id Seed.manager)) (Some {| approval_comments := None |})
         Seed.world)
  = json 400 (createErrorResponse ERROR_CODES.INVALID_STATUS_TRANSITION
                "Invoice is not awaiting approval." None).
Proof.
  apply (approve_needs_review_is_invalid_transition
           Seed.penv Seed.world (Invoices.id Seed.needs_review_invoice)
           (Users.id Seed.manager) {| approval_comments := None |}
           Seed.needs_review_invoice); reflexivity.
Defined.

Lemma approve_by_finance_clerk_succeeds_witness :
  http_status
    (fst (post_invoices_approve Seed.penv
            (Invoices.id Seed.awaiting_approval_invoice)
            (Some (Users.id Seed.clerk)) (Some {| approval_comments := None |})
            Seed.world)) = 200.
Proof.
  apply (approve_by_finance_clerk_succeeds
           Seed.penv Seed.world (Invoices.id Seed.awaiting_approval_invoice)
           {| approval_comments := None |} Seed.awaiting_approval_invoice
           Seed.clerk); try reflexivity.
  left; reflexivity.
Defined.

Lemma reject_from_any_status_succeeds_witness :
  first_invoice
    (snd (post_invoices_reject Seed.penv (Invoices.id Seed.approved_invoice)
            (Some {| reason := Some "duplicate"%string;
                     rejection_comments := None |})
            Seed.world))
    (Invoices.id Seed.approved_invoice)
  = Some (Invoices.set_status (InvoiceStatus_value REJECTED) Seed.approved_invoice).
Proof.
  apply (reject_from_any_status_succeeds
           Seed.penv Seed.world (Invoices.id Seed.approved_invoice)
           {| reason := Some "duplicate"%string; rejection_comments := None |}
           "duplicate" Seed.approved_invoice);
    try reflexivity.
  discriminate.
Defined.

Lemma delete_existing_invoice_is_refused_witness :
  snd (delete_invoice Seed.penv (Invoices.id Seed.needs_review_invoice) Seed.world)
  = Seed.world.
Proof.
  apply (delete_existing_invoice_is_refused
           Seed.penv Seed.world (Invoices.id Seed.needs_review_invoice)
           Seed.needs_review_invoice).
  reflexivity.
Defined.

Lemma upload_is_created_in_needs_review_witness :
  exists created,
    first_invoice
      (snd (invoiceProcessingWorkflow Seed.penv Seed.env (Seed.pdf 2048) Seed.world))
      (invoice_uuid Seed.env) = Some created
    /\ Invoices.status created = InvoiceStatus_value NEEDS_REVIEW.
Proof.
  apply (upload_is_created_in_needs_review
           Seed.penv Seed.env (Seed.pdf 2048) Seed.world); reflexivity.
Defined.

Lemma transactions_are_separately_atomic_witness :
  fst (invoiceProcessingWorkflow Seed.penv Seed.env_line_items_fail
         (Seed.pdf 2048) Seed.world)
  = Throw "Connection terminated unexpectedly"
  /\ invoices (snd (invoiceProcessingWorkflow Seed.penv Seed.env_line_items_fail
                      (Seed.pdf 2048) Seed.world))
     = invoices Seed.world
       ++ [inserted_invoice Seed.penv Seed.env_line_items_fail (Seed.pdf 2048)]
  /\ line_items (snd (invoiceProcessingWorkflow Seed.penv Seed.env_line_items_fail
                        (Seed.pdf 2048) Seed.world))
     = line_items Seed.world.
Proof.
  apply (transactions_are_separately_atomic
           Seed.penv Seed.env_line_items_fail (Seed.pdf 2048) Seed.world);
    reflexivity.
Defined.

Lemma file_size_limit_is_inclusive_witness :
  http_status
    (fst (post_invoices_upload true Seed.penv Seed.env (Some (Seed.pdf 10485760))
            NoMetadata Seed.world)) = 201
  /\ post_invoices_upload true Seed.penv Seed.env (Some (Seed.pdf 10485761))
       NoMetadata Seed.world
     = (json 413 (createErrorResponse ERROR_CODES.FILE_TOO_LARGE
                    "File size exceeds the 10MB limit." None), Seed.world).
Proof.
  split.
  - apply (file_size_limit_is_inclusive
             true Seed.penv Seed.env (Seed.pdf 10485760) NoMetadata Seed.world);
      try reflexivity.
    + left; reflexivity.
    + left; reflexivity.
  - apply (file_size_limit_is_inclusive
             true Seed.penv Seed.env (Seed.pdf 10485761) NoMetadata Seed.world);
      try reflexivity.
    + left; reflexivity.
    + left; reflexivity.
Defined.

(* ================================================================== *)
(** * Further properties *)
(* ================================================================== *)

(** ** The status decision, completed *)

(** The decision is [awaiting_approval] exactly when the overall confidence
    reaches 0.95 and neither difference, as the code computes it, exceeds
    the tolerance; in every other case it is [needs_review]. *)
Theorem awaiting_approval_iff
        (extractedData : ExtractedData) (confidence : ExtractionConfidence) :
  (validateBusinessRulesStep extractedData confidence = AWAITING_APPROVAL
   <-> JS.ge (overallConfidence confidence)
             BUSINESS_RULES.CONFIDENCE_THRESHOLD_AUTO_APPROVAL = true
       /\ JS.gt (subtotalDiff extractedData) BUSINESS_RULES.MATH_TOLERANCE = false
       /\ JS.gt (totalDiff extractedData) BUSINESS_RULES.MATH_TOLERANCE = false)
  /\ (validateBusinessRulesStep extractedData confidence <> AWAITING_APPROVAL
      -> validateBusinessRulesStep extractedData confidence = NEEDS_REVIEW).
Proof.
  unfold validateBusinessRulesStep.
  destruct (JS.ge (overallConfidence confidence)
                  BUSINESS_RULES.CONFIDENCE_THRESHOLD_AUTO_APPROVAL) eqn:Hge.
  - rewrite (auto_approval_not_low _ Hge).
    destruct (JS.gt (subtotalDiff extractedData) BUSINESS_RULES.MATH_TOLERANCE),
             (JS.gt (totalDiff extractedData) BUSINESS_RULES.MATH_TOLERANCE);
      simpl; (split; [split; [intros H; try discriminate H; auto
                             | intros (_ & H1 & H2); try discriminate; auto]
                     | intros H; try reflexivity; contradiction H; reflexivity]).
  - destruct (JS.lt (overallConfidence confidence)
                    BUSINESS_RULES.LOW_CONFIDENCE_THRESHOLD),
             (JS.gt (subtotalDiff extractedData) BUSINESS_RULES.MATH_TOLERANCE),
             (JS.gt (totalDiff extractedData) BUSINESS_RULES.MATH_TOLERANCE);
      simpl; (split; [split; [discriminate | intros (H & _); discriminate H]
                     | reflexivity]).
Qed.

(** Whenever subtotal plus tax does not reconcile with the total, that is
    [|subtotal + taxAmount - totalAmount| > 0.01] with absent amounts read
    as zero, the decision is [needs_review], whatever the confidence. *)
Theorem unreconciled_total_needs_review
        (extractedData : ExtractedData) (confidence : ExtractionConfidence) :
  JS.gt (abs (field_value (subtotal extractedData)
              + field_value (taxAmount extractedData)
              - field_value (totalAmount extractedData)))
        BUSINESS_RULES.MATH_TOLERANCE = true ->
  validateBusinessRulesStep extractedData confidence = NEEDS_REVIEW.
Proof.
  intros Hgap. unfold validateBusinessRulesStep.
  destruct (JS.lt (overallConfidence confidence)
                  BUSINESS_RULES.LOW_CONFIDENCE_THRESHOLD); [reflexivity|].
  rewrite (gt_tolerance_related _ _ (related_totalDiff extractedData) Hgap).
  rewrite orb_true_r. reflexivity.
Qed.

Lemma is_nan_Prim2SF (c : float) : is_nan c = true -> Prim2SF c = S754_nan.
Proof. intros H. unfold Prim2SF. rewrite H. reflexivity. Qed.

(** An overall confidence below 0.75, or one that is not a number, gives
    [needs_review] even when all the amounts reconcile exactly. *)
Theorem low_or_undefined_confidence_needs_review
        (extractedData : ExtractedData) (confidence : ExtractionConfidence) :
  JS.lt (overallConfidence confidence)
        BUSINESS_RULES.LOW_CONFIDENCE_THRESHOLD = true
  \/ is_nan (overallConfidence confidence) = true ->
  validateBusinessRulesStep extractedData confidence = NEEDS_REVIEW.
Proof.
  unfold validateBusinessRulesStep. intros [-> | Hnan]; [reflexivity|].
  assert (Hge : JS.ge (overallConfidence confidence)
                      BUSINESS_RULES.CONFIDENCE_THRESHOLD_AUTO_APPROVAL = false).
  { unfold JS.ge. rewrite leb_spec, (is_nan_Prim2SF _ Hnan).
    unfold SFleb, SFcompare.
    destruct (Prim2SF BUSINESS_RULES.CONFIDENCE_THRESHOLD_AUTO_APPROVAL);
      reflexivity. }
  rewrite Hge.
  destruct (JS.lt _ _); [reflexivity|].
  destruct (_ || _); reflexivity.
Qed.

(** ** The actions on one invoice, completed *)


Lemma get_invoice_reads w invoiceId :
  exists r, transaction (getInvoiceByIdTransaction invoiceId) w = (Ok r, w).
Proof.
  unfold transaction, getInvoiceByIdTransaction.
  destruct (first_invoice w invoiceId); eauto.
Qed.

Lemma is_uuid_nonempty (u : string) :
  is_uuid u = true -> String.eqb u EmptyString = false.
Proof. destruct u; [discriminate | reflexivity]. Qed.

Lemma set_status_same (r : Invoices.row) :
  Invoices.set_status (Invoices.status r) r = r.
Proof. destruct r; reflexivity. Qed.

(** What a committed update of one invoice did to the table. *)
Lemma update_rows_committed w invoiceId u rows rows' :
  update_rows w invoiceId u rows = Ok rows' ->
  rows' = map (fun r => if String.eqb (Invoices.id r) invoiceId
                        then apply_update u r else r) rows
  /\ forall r, In r rows -> Invoices.id r = invoiceId ->
               update_violation w u (apply_update u r) = None.
Proof.
  revert rows'. induction rows as [|r rest IH]; simpl; intros rows' H.
  - injection H as <-. split; [reflexivity | contradiction].
  - destruct (String.eqb (Invoices.id r) invoiceId) eqn:E.
    + destruct (update_violation w u (apply_update u r)) eqn:V; [discriminate|].
      destruct (update_rows w invoiceId u rest) as [rest'|]; [|discriminate].
      injection H as <-. destruct (IH rest' eq_refl) as [-> Hok].
      split; [reflexivity|]. intros r' [<- | Hin] Hid; auto.
    + destruct (update_rows w invoiceId u rest) as [rest'|]; [|discriminate].
      injection H as <-. destruct (IH rest' eq_refl) as [-> Hok].
      split; [reflexivity|]. intros r' [<- | Hin] Hid; auto.
      apply String.eqb_neq in E. contradiction.
Qed.




(** Submitting for approval moves an invoice from [needs_review] to
    [awaiting_approval] and changes no other field; from any other status it
    is refused with [INVALID_STATUS_TRANSITION] and nothing is written. *)
Theorem submit_for_approval_only_from_needs_review
        (penv : ProcessEnv) (w : World) (invoiceId : string) (inv : Invoices.row) :
  first_invoice w invoiceId = Some inv ->
  let outcome := post_invoices_submit_for_approval penv invoiceId w in
  (Invoices.status inv = InvoiceStatus_value NEEDS_REVIEW ->
   http_status (fst outcome) = 200
   /\ first_invoice (snd outcome) invoiceId
      = Some (Invoices.set_status (InvoiceStatus_value AWAITING_APPROVAL) inv))
  /\ (Invoices.status inv <> InvoiceStatus_value NEEDS_REVIEW ->
      outcome
      = (json 400 (createErrorResponse ERROR_CODES.INVALID_STATUS_TRANSITION
                     "Invoice is not ready for approval." None), w)).
Proof.
  intros Hfind. cbv zeta.
  unfold post_invoices_submit_for_approval, try_catch, bind.
  rewrite (get_invoice_found _ _ _ Hfind).
  change (InvoiceResponse.status (mapDatabaseToInvoiceResponse w inv _))
    with (Invoices.status inv).
  split; intros Hstatus.
  - rewrite Hstatus. simpl.
    rewrite update_status_commits by reflexivity.
    erewrite get_invoice_found by (apply first_invoice_updated; exact Hfind).
    simpl. split; [reflexivity|].
    rewrite (first_invoice_updated _ _ _ _ Hfind). reflexivity.
  - apply String.eqb_neq in Hstatus. rewrite Hstatus. reflexivity.
Qed.

(** Assigning works from every status, the final ones included: for a
    consistent row and an existing user it answers 200, sets [assigned_to]
    and leaves the status and every other field as they were. *)
Theorem assign_keeps_status
        (penv : ProcessEnv) (w : World) (invoiceId : string)
        (request : AssignmentRequest) (inv : Invoices.row) (assignee : Users.row) :
  In assignee (users w) ->
  is_uuid (Users.id assignee) = true ->
  userId request = Some (Users.id assignee) ->
  first_invoice w invoiceId = Some inv ->
  Invoices.status_check (Invoices.status inv) = true ->
  let outcome := post_invoices_assign penv invoiceId (Some request) w in
  http_status (fst outcome) = 200
  /\ first_invoice (snd outcome) invoiceId
     = Some (Invoices.set_assigned_to (Users.id assignee) inv).
Proof.
  intros Hin Huuid Huser Hfind Hcheck. cbv zeta.
  pose proof (In_user_exists _ _ Hin) as Hexists.
  unfold post_invoices_assign, try_catch. rewrite Huser. cbv zeta.
  rewrite (is_uuid_string_or _ Huuid), Huuid, (is_uuid_nonempty _ Huuid).
  change (negb true) with false. cbv iota.
  unfold bind. rewrite (get_invoice_found _ _ _ Hfind).
  change (InvoiceResponse.status (mapDatabaseToInvoiceResponse w inv _))
    with (Invoices.status inv).
  rewrite update_status_commits by (try reflexivity; assumption).
  erewrite get_invoice_found by (apply first_invoice_updated; exact Hfind).
  simpl. split; [reflexivity|].
  rewrite (first_invoice_updated _ _ _ _ Hfind).
  unfold apply_update; simpl. rewrite set_status_same. reflexivity.
Qed.

Lemma approve_commits penv w invoiceId user request inv :
  user_exists w user = true ->
  is_uuid user = true ->
  first_invoice w invoiceId = Some inv ->
  Invoices.status inv = InvoiceStatus_value AWAITING_APPROVAL ->
  exists data,
    post_invoices_approve penv invoiceId (Some user) (Some request) w
    = (json 200 (createSuccessResponse (Some data)),
       updated_invoices invoiceId
         {| set_status := Some (InvoiceStatus_value APPROVED);
            set_assigned_to := None;
            set_approved_by := Some user |} w).
Proof.
  intros Hexists Huuid Hfind Hstatus.
  unfold post_invoices_approve, try_catch.
  rewrite (is_uuid_string_or _ Huuid), Huuid. simpl.
  unfold bind. rewrite (get_invoice_found _ _ _ Hfind). simpl.
  rewrite Hstatus. simpl.
  rewrite update_status_commits by (try reflexivity; exact Hexists).
  erewrite get_invoice_found by (apply first_invoice_updated; exact Hfind).
  eexists. reflexivity.
Qed.

Lemma approve_refuses_status penv w invoiceId user request inv :
  is_uuid user = true ->
  first_invoice w invoiceId = Some inv ->
  Invoices.status inv <> InvoiceStatus_value AWAITING_APPROVAL ->
  post_invoices_approve penv invoiceId (Some user) (Some request) w
  = (json 400 (createErrorResponse ERROR_CODES.INVALID_STATUS_TRANSITION
                 "Invoice is not awaiting approval." None), w).
Proof.
  intros Huuid Hfind Hstatus.
  unfold post_invoices_approve, try_catch.
  rewrite (is_uuid_string_or _ Huuid), Huuid. simpl.
  unfold bind. rewrite (get_invoice_found _ _ _ Hfind).
  change (InvoiceResponse.status (mapDatabaseToInvoiceResponse w inv _))
    with (Invoices.status inv).
  apply String.eqb_neq in Hstatus. simpl in Hstatus. rewrite Hstatus.
  reflexivity.
Qed.

Lemma submit_commits penv w invoiceId inv :
  first_invoice w invoiceId = Some inv ->
  Invoices.status inv = InvoiceStatus_value NEEDS_REVIEW ->
  exists data,
    post_invoices_submit_for_approval penv invoiceId w
    = (json 200 (createSuccessResponse (Some data)),
       updated_invoices invoiceId
         {| set_status := Some (InvoiceStatus_value AWAITING_APPROVAL);
            set_assigned_to := None;
            set_approved_by := None |} w).
Proof.
  intros Hfind Hstatus.
  unfold post_invoices_submit_for_approval, try_catch, bind.
  rewrite (get_invoice_found _ _ _ Hfind).
  change (InvoiceResponse.status (mapDatabaseToInvoiceResponse w inv _))
    with (Invoices.status inv).
  rewrite Hstatus. simpl.
  rewrite update_status_commits by reflexivity.
  erewrite get_invoice_found by (apply first_invoice_updated; exact Hfind).
  eexists. reflexivity.
Qed.

Lemma reject_commits penv w invoiceId rejection why inv :
  reason rejection = Some why -> why <> EmptyString ->
  first_invoice w invoiceId = Some inv ->
  exists data,
    post_invoices_reject penv invoiceId (Some rejection) w
    = (json 200 (createSuccessResponse (Some data)),
       updated_invoices invoiceId
         {| set_status := Some (InvoiceStatus_value REJECTED);
            set_assigned_to := None;
            set_approved_by := None |} w).
Proof.
  intros Hreason Hwhy Hfind.
  unfold post_invoices_reject, try_catch. rewrite Hreason.
  destruct why as [|c why]; [contradiction|]. simpl.
  unfold bind. rewrite (get_invoice_found _ _ _ Hfind). simpl.
  rewrite update_status_commits by reflexivity.
  erewrite get_invoice_found by (apply first_invoice_updated; exact Hfind).
  eexists. reflexivity.
Qed.

(** Of two approve calls made one after the other on the same invoice, the
    first succeeds and the second, by whichever user, is refused with
    [INVALID_STATUS_TRANSITION] and writes nothing: the approver that the
    first call recorded stays. *)
Theorem second_approve_is_refused
        (penv : ProcessEnv) (w : World) (invoiceId first second : string)
        (request request' : ApprovalRequest) (inv : Invoices.row) :
  user_exists w first = true ->
  is_uuid first = true ->
  is_uuid second = true ->
  first_invoice w invoiceId = Some inv ->
  Invoices.status inv = InvoiceStatus_value AWAITING_APPROVAL ->
  let once := post_invoices_approve penv invoiceId (Some first) (Some request) w in
  let twice :=
    post_invoices_approve penv invoiceId (Some second) (Some request') (snd once) in
  http_status (fst once) = 200
  /\ twice
     = (json 400 (createErrorResponse ERROR_CODES.INVALID_STATUS_TRANSITION
                    "Invoice is not awaiting approval." None), snd once)
  /\ first_invoice (snd twice) invoiceId
     = Some (Invoices.set_approved_by first
               (Invoices.set_status (InvoiceStatus_value APPROVED) inv)).
Proof.
  intros Hexists Huuid Huuid' Hfind Hstatus. cbv zeta.
  destruct (approve_commits penv w invoiceId first request inv
                            Hexists Huuid Hfind Hstatus) as [data ->].
  cbn [fst snd].
  pose proof (first_invoice_updated w invoiceId
                {| set_status := Some (InvoiceStatus_value APPROVED);
                   set_assigned_to := None;
                   set_approved_by := Some first |} inv Hfind) as Hnow.
  rewrite (approve_refuses_status penv _ invoiceId second request' _ Huuid' Hnow)
    by (rewrite apply_update_status; discriminate).
  split; [reflexivity|]. split; [reflexivity|]. exact Hnow.
Qed.

(** Submit, then approve: an invoice in [needs_review] that is submitted and
    then approved ends in [approved] with the approver recorded, all other
    fields as they were. *)
Theorem submit_then_approve
        (penv : ProcessEnv) (w : World) (invoiceId user : string)
        (request : ApprovalRequest) (inv : Invoices.row) :
  user_exists w user = true ->
  is_uuid user = true ->
  first_invoice w invoiceId = Some inv ->
  Invoices.status inv = InvoiceStatus_value NEEDS_REVIEW ->
  let submitted := post_invoices_submit_for_approval penv invoiceId w in
  let approved :=
    post_invoices_approve penv invoiceId (Some user) (Some request)
                          (snd submitted) in
  http_status (fst submitted) = 200
  /\ http_status (fst approved) = 200
  /\ first_invoice (snd approved) invoiceId
     = Some (Invoices.set_approved_by user
               (Invoices.set_status (InvoiceStatus_value APPROVED) inv)).
Proof.
  intros Hexists Huuid Hfind Hstatus. cbv zeta.
  destruct (submit_commits penv w invoiceId inv Hfind Hstatus) as [data ->].
  cbn [fst snd].
  pose proof (first_invoice_updated w invoiceId
                {| set_status := Some (InvoiceStatus_value AWAITING_APPROVAL);
                   set_assigned_to := None;
                   set_approved_by := None |} inv Hfind) as Hnow.
  destruct (approve_commits penv
              (updated_invoices invoiceId
                 {| set_status := Some (InvoiceStatus_value AWAITING_APPROVAL);
                    set_assigned_to := None;
                    set_approved_by := None |} w)
              invoiceId user request _
              Hexists Huuid Hnow (apply_update_status _ _ _ _))
    as [data' ->].
  cbn [fst snd]. split; [reflexivity|]. split; [reflexivity|].
  rewrite (first_invoice_updated _ _ _ _ Hnow).
  destruct inv; reflexivity.
Qed.

(** Approve, then reject: the reject call turns the approved invoice into
    [rejected] and leaves [approved_by] set to the approver. *)
Theorem reject_after_approve_keeps_approver
        (penv : ProcessEnv) (w : World) (invoiceId user why : string)
        (request : ApprovalRequest) (rejection : RejectionRequest)
        (inv : Invoices.row) :
  user_exists w user = true ->
  is_uuid user = true ->
  first_invoice w invoiceId = Some inv ->
  Invoices.status inv = InvoiceStatus_value AWAITING_APPROVAL ->
  reason rejection = Some why -> why <> EmptyString ->
  let approved :=
    post_invoices_approve penv invoiceId (Some user) (Some request) w in
  let rejected :=
    post_invoices_reject penv invoiceId (Some rejection) (snd approved) in
  http_status (fst rejected) = 200
  /\ exists row,
      first_invoice (snd rejected) invoiceId = Some row
      /\ Invoices.status row = InvoiceStatus_value REJECTED
      /\ Invoices.approved_by row = Some user.
Proof.
  intros Hexists Huuid Hfind Hstatus Hreason Hwhy. cbv zeta.
  destruct (approve_commits penv w invoiceId user request inv
                            Hexists Huuid Hfind Hstatus) as [data ->].
  cbn [fst snd].
  pose proof (first_invoice_updated w invoiceId
                {| set_status := Some (InvoiceStatus_value APPROVED);
                   set_assigned_to := None;
                   set_approved_by := Some user |} inv Hfind) as Hnow.
  destruct (reject_commits penv _ invoiceId rejection why _ Hreason Hwhy Hnow)
    as [data' ->].
  cbn [fst snd]. split; [reflexivity|].
  rewrite (first_invoice_updated _ _ _ _ Hnow).
  eexists. split; [reflexivity|]. split; reflexivity.
Qed.


(** ** The user-id pattern *)

Lemma hex_run_length n s r :
  hex_run n s = Some r -> String.length s = (n + String.length r)%nat.
Proof.
  revert s. induction n as [|n IH]; simpl; intros s H.
  - injection H as <-. reflexivity.
  - destruct s as [|c s]; [discriminate|].
    destruct (is_hex_digit c); [|discriminate].
    simpl. rewrite (IH _ H). reflexivity.
Qed.

Lemma dash_length s r : dash s = Some r -> String.length s = S (String.length r).
Proof.
  destruct s as [|c s]; simpl; [discriminate|].
  destruct c as [[] [] [] [] [] [] [] []]; try discriminate.
  intros [= <-]. reflexivity.
Qed.

Lemma is_uuid_length (s : string) : is_uuid s = true -> String.length s = 36%nat.
Proof.
  unfold is_uuid, and_then. intros H.
  destruct (hex_run 8 s) as [s1|] eqn:E1; [|discriminate].
  destruct (dash s1) as [s2|] eqn:E2; [|discriminate].
  destruct (hex_run 4 s2) as [s3|] eqn:E3; [|discriminate].
  destruct (dash s3) as [s4|] eqn:E4; [|discriminate].
  destruct (hex_run 4 s4) as [s5|] eqn:E5; [|discriminate].
  destruct (dash s5) as [s6|] eqn:E6; [|discriminate].
  destruct (hex_run 4 s6) as [s7|] eqn:E7; [|discriminate].
  destruct (dash s7) as [s8|] eqn:E8; [|discriminate].
  destruct (hex_run 12 s8) as [s9|] eqn:E9; [|discriminate].
  destruct s9; [|discriminate].
  apply hex_run_length in E1, E3, E5, E7, E9.
  apply dash_length in E2, E4, E6, E8.
  simpl in E9. lia.
Qed.

(** A user id that is not 36 characters long never reaches the database:
    approve answers 401 and assign answers 400, both [INVALID_USER_ID], and
    nothing is read or written, whether the invoice exists or not. *)
Theorem user_id_of_wrong_length_is_refused
        (penv : ProcessEnv) (w : World) (invoiceId user : string)
        (approval : ApprovalRequest) (assignment : AssignmentRequest) :
  String.length user <> 36%nat ->
  user <> EmptyString ->
  userId assignment = Some user ->
  post_invoices_approve penv invoiceId (Some user) (Some approval) w
  = (json 401 (createErrorResponse "INVALID_USER_ID"
                 "Valid user authentication required for approval." None), w)
  /\ post_invoices_assign penv invoiceId (Some assignment) w
     = (json 400 (createErrorResponse "INVALID_USER_ID"
                    "User ID must be a valid UUID format." None), w).
Proof.
  intros Hlength Hne Huser.
  assert (Hbad : is_uuid user = false).
  { destruct (is_uuid user) eqn:E; [|reflexivity].
    apply is_uuid_length in E. contradiction. }
  assert (Hor : string_or (Some user) EmptyString = user)
    by (destruct user; [contradiction | reflexivity]).
  split.
  - unfold post_invoices_approve, try_catch. rewrite Hor, Hbad. reflexivity.
  - unfold post_invoices_assign, try_catch. rewrite Huser. cbv zeta.
    rewrite Hor, Hbad.
    destruct user; [contradiction | reflexivity].
Qed.

(** ** The store stays consistent *)

Lemma apply_update_assigned_to u r :
  Invoices.assigned_to (apply_update u r)
  = match set_assigned_to u with
    | Some a => Some a
    | None => Invoices.assigned_to r
    end.
Proof.
  unfold apply_update.
  destruct (set_status u), (set_assigned_to u), (set_approved_by u); reflexivity.
Qed.

Lemma apply_update_approved_by u r :
  Invoices.approved_by (apply_update u r)
  = match set_approved_by u with
    | Some a => Some a
    | None => Invoices.approved_by r
    end.
Proof.
  unfold apply_update.
  destruct (set_status u), (set_assigned_to u), (set_approved_by u); reflexivity.
Qed.

Lemma update_invoices_consistent invoiceId u w w' :
  consistent w ->
  update_invoices invoiceId u w = Ok (tt, w') ->
  consistent w'.
Proof.
  unfold update_invoices. intros Hw H.
  destruct (update_rows w invoiceId u (invoices w)) as [rows|] eqn:E;
    [|discriminate].
  injection H as <-. apply update_rows_committed in E. destruct E as [-> Hok].
  intros r' Hin. simpl in Hin. apply in_map_iff in Hin.
  destruct Hin as (r & <- & Hin).
  change (row_consistent (with_invoices _ w)) with (row_consistent w).
  destruct (String.eqb (Invoices.id r) invoiceId) eqn:Eid; [|apply Hw; exact Hin].
  apply String.eqb_eq in Eid. specialize (Hok r Hin Eid).
  specialize (Hw r Hin). unfold row_consistent in Hw |- *.
  apply andb_true_iff in Hw. destruct Hw as [Hw Happroved].
  apply andb_true_iff in Hw. destruct Hw as [_ Hassigned].
  unfold update_violation in Hok.
  destruct (Invoices.status_check (Invoices.status (apply_update u r)));
    [|discriminate].
  rewrite apply_update_assigned_to, apply_update_approved_by.
  destruct (set_assigned_to u) as [a|]; simpl in Hok |- *.
  - destruct (user_exists w a); [|discriminate]. simpl in Hok |- *.
    destruct (set_approved_by u) as [b|]; simpl in Hok |- *.
    + destruct (user_exists w b); [reflexivity | discriminate].
    + exact Happroved.
  - rewrite Hassigned. simpl.
    destruct (set_approved_by u) as [b|]; simpl in Hok |- *.
    + destruct (user_exists w b); [reflexivity | discriminate].
    + exact Happroved.
Qed.

Lemma transaction_update_consistent invoiceId u w :
  consistent w ->
  consistent (snd (transaction (update_invoices invoiceId u) w)).
Proof.
  intros Hw. unfold transaction.
  destruct (update_invoices invoiceId u w) as [[[] w']|message] eqn:E; simpl.
  - exact (update_invoices_consistent _ _ _ _ Hw E).
  - exact Hw.
Qed.

(** The end of the three status actions: an update, then a read. *)
Lemma update_then_read_consistent penv invoiceId u w :
  consistent w ->
  consistent
    (snd (let (r, w') :=
            (_ <- transaction (update_invoices invoiceId u) ;;
             updatedInvoice <- transaction (getInvoiceByIdTransaction invoiceId) ;;
             ret (json 200 (createSuccessResponse updatedInvoice))) w in
          match r with
          | Ok response => (response, w')
          | Throw errorMessage => (handleError penv errorMessage, w')
          end)).
Proof.
  intros Hw. unfold bind.
  pose proof (transaction_update_consistent invoiceId u w Hw) as H.
  destruct (transaction (update_invoices invoiceId u) w) as [[[]|message] w'];
    simpl in H |- *; [|exact H].
  destruct (get_invoice_reads w' invoiceId) as [r ->]. exact H.
Qed.

(** Every action on an invoice keeps the store consistent, whatever the
    request: after approve, reject, submit-for-approval, assign and delete,
    every invoice still has a status of the enumeration and user references
    that name users. *)
Theorem actions_keep_the_store_consistent
        (penv : ProcessEnv) (w : World) (invoiceId : string)
        (x_user_id : option string) (approval : option ApprovalRequest)
        (rejection : option RejectionRequest)
        (assignment : option AssignmentRequest) :
  consistent w ->
  consistent (snd (post_invoices_approve penv invoiceId x_user_id approval w))
  /\ consistent (snd (post_invoices_reject penv invoiceId rejection w))
  /\ consistent (snd (post_invoices_submit_for_approval penv invoiceId w))
  /\ consistent (snd (post_invoices_assign penv invoiceId assignment w))
  /\ consistent (snd (delete_invoice penv invoiceId w)).
Proof.
  intros Hw. repeat split.
  - unfold post_invoices_approve, try_catch.
    destruct approval; [|exact Hw].
    destruct (negb (is_uuid _)); [exact Hw|].
    unfold bind at 1.
    destruct (get_invoice_reads w invoiceId) as [[existing|] ->]; [|exact Hw].
    destruct (negb _); [exact Hw|].
    apply (update_then_read_consistent penv invoiceId _ w Hw).
  - unfold post_invoices_reject, try_catch.
    destruct rejection; [|exact Hw].
    destruct (String.eqb _ _); [exact Hw|].
    unfold bind at 1.
    destruct (get_invoice_reads w invoiceId) as [[existing|] ->]; [|exact Hw].
    apply (update_then_read_consistent penv invoiceId _ w Hw).
  - unfold post_invoices_submit_for_approval, try_catch.
    unfold bind at 1.
    destruct (get_invoice_reads w invoiceId) as [[existing|] ->]; [|exact Hw].
    destruct (negb _); [exact Hw|].
    apply (update_then_read_consistent penv invoiceId _ w Hw).
  - unfold post_invoices_assign, try_catch.
    destruct assignment; [|exact Hw]. cbv zeta.
    destruct (String.eqb _ _); [exact Hw|].
    destruct (negb _); [exact Hw|].
    unfold bind at 1.
    destruct (get_invoice_reads w invoiceId) as [[existing|] ->]; [|exact Hw].
    apply (update_then_read_consistent penv invoiceId _ w Hw).
  - unfold delete_invoice, try_catch.
    unfold bind at 1.
    destruct (get_invoice_reads w invoiceId) as [[existing|] ->]; [|exact Hw].
    unfold bind.
    pose proof (transaction_update_consistent invoiceId
                  {| set_status := Some "deleted"%string;
                     set_assigned_to := None; set_approved_by := None |} w Hw) as H.
    unfold deleteInvoiceTransaction.
    destruct (transaction (update_invoices invoiceId _) w) as [[[]|message] w'];
      exact H.
Qed.

(** ** The upload endpoint, completed *)

Lemma workflow_users penv env fileData w :
  users (snd (invoiceProcessingWorkflow penv env fileData w)) = users w.
Proof.
  rewrite workflow_steps.
  destruct (validateFileStep fileData) as [[]|message]; [|reflexivity].
  destruct (save_file_fault env) as [message|]; [reflexivity|]. cbv zeta.
  destruct (create_invoice_outcome penv env fileData (saved penv env fileData w))
    as [[message ->] | (_ & _ & ->)]; [reflexivity|].
  match goal with
  | |- context [with_fault (create_line_items_fault env) _ ?w2] =>
      destruct (create_line_items_outcome penv env fileData w2)
        as [[message ->] | (_ & ->)]
  end; [reflexivity|].
  destruct (with_fault (get_invoice_fault env) _ _) as [[[invoice|] w4]|message];
    reflexivity.
Qed.

Lemma row_consistent_users w w' r :
  users w' = users w -> row_consistent w' r = row_consistent w r.
Proof.
  intros H. unfold row_consistent, user_exists. rewrite H. reflexivity.
Qed.

Lemma upload_world delivers_limit penv env file metadata w :
  snd (post_invoices_upload delivers_limit penv env file metadata w) = w
  \/ exists fileData,
      file = Some fileData
      /\ snd (post_invoices_upload delivers_limit penv env file metadata w)
         = snd (invoiceProcessingWorkflow penv env fileData w).
Proof.
  unfold post_invoices_upload.
  destruct (upload_single delivers_limit file) as [[f|]|error] eqn:E;
    [|left; reflexivity|left; reflexivity].
  assert (Hf : file = Some f).
  { unfold upload_single in E. destruct file as [f'|]; [|discriminate].
    destruct (negb _); [discriminate|].
    destruct (_ || _); [discriminate|]. congruence. }
  unfold try_catch.
  destruct metadata as [| syntaxError | | m];
    try (destruct (negb (InvoiceSubmissionSchema f _)); [left; reflexivity|]);
    try (left; reflexivity);
    right; exists f; (split; [exact Hf|]); unfold bind;
    destruct (invoiceProcessingWorkflow penv env f w) as [[invoice|message] w'];
    reflexivity.
Qed.

(** An upload, accepted or not, keeps the store consistent: the invoice it
    may add is in [needs_review] and references no user, and no other row
    changes. *)
Theorem upload_keeps_the_store_consistent
        (delivers_limit : bool) (penv : ProcessEnv) (env : WorkflowEnv)
        (file : option File) (metadata : MetadataField) (w : World) :
  consistent w ->
  consistent (snd (post_invoices_upload delivers_limit penv env file metadata w)).
Proof.
  intros Hw.
  destruct (upload_world delivers_limit penv env file metadata w)
    as [-> | (fileData & _ & ->)]; [exact Hw|].
  intros r Hin.
  rewrite (row_consistent_users _ _ r (workflow_users penv env fileData w)).
  destruct (workflow_tables penv env fileData w)
    as [(Hi & _) | [(Hi & _) | (Hi & _)]]; cbv zeta in Hi; rewrite Hi in Hin.
  - apply Hw. exact Hin.
  - apply in_app_or in Hin. destruct Hin as [Hin | [<- | []]];
      [apply Hw; exact Hin | reflexivity].
  - apply in_app_or in Hin. destruct Hin as [Hin | [<- | []]];
      [apply Hw; exact Hin | reflexivity].
Qed.

(** Only PDF, PNG and JPEG reach the workflow: an upload of any other type
    is answered 400 [INVALID_FILE_FORMAT] and writes nothing.  This includes
    [image/jpg], which the validate-file step of the workflow would accept. *)
Theorem other_types_never_reach_the_workflow
        (delivers_limit : bool) (penv : ProcessEnv) (env : WorkflowEnv)
        (fileData : File) (metadata : MetadataField) (w : World) :
  ~ In (mimetype fileData) upload_allowedTypes ->
  post_invoices_upload delivers_limit penv env (Some fileData) metadata w
  = (json 400 (createErrorResponse ERROR_CODES.INVALID_FILE_FORMAT
                 "Invalid file format. Only PDF, PNG, and JPG files are allowed."
                 None), w)
  /\ (mimetype fileData = "image/jpg"%string ->
      size fileData <= BUSINESS_RULES.MAX_FILE_SIZE_BYTES ->
      validateFileStep fileData = Ok tt).
Proof.
  intros Hnot. split.
  - assert (Hfilter : existsb (String.eqb (mimetype fileData)) upload_allowedTypes
                      = false).
    { destruct (existsb _ _) eqn:E; [|reflexivity].
      apply existsb_exists in E. destruct E as (x & Hin & Heq).
      apply String.eqb_eq in Heq. subst x. contradiction. }
    unfold post_invoices_upload, upload_single. rewrite Hfilter. reflexivity.
  - intros Htype Hsize. unfold validateFileStep. rewrite Htype.
    apply Z.ltb_ge in Hsize. rewrite Hsize. reflexivity.
Qed.

(** Metadata that does not fit the schema is answered 400
    [VALIDATION_ERROR], and metadata that is not JSON at all is answered by
    the error handler; in both cases no step of the workflow runs and
    nothing is written. *)
Theorem bad_metadata_stops_before_the_workflow
        (penv : ProcessEnv) (env : WorkflowEnv) (fileData : File)
        (syntaxError : string) (w : World) :
  In (mimetype fileData) upload_allowedTypes ->
  size fileData < BUSINESS_RULES.MAX_FILE_SIZE_BYTES ->
  forall delivers_limit,
    post_invoices_upload delivers_limit penv env (Some fileData)
                         NonConformingMetadata w
    = (json 400 (createErrorResponse "VALIDATION_ERROR" "Invalid request data."
                   (Some "issues"%string)), w)
    /\ post_invoices_upload delivers_limit penv env (Some fileData)
                            (MalformedMetadata syntaxError) w
       = (handleError penv syntaxError, w).
Proof.
  intros Htype Hsize delivers_limit.
  destruct (upload_type_accepted fileData Htype) as [Hfilter _].
  assert (Hpass : upload_single delivers_limit (Some fileData)
                  = inl (Some fileData)).
  { unfold upload_single. rewrite Hfilter.
    assert (H1 : (BUSINESS_RULES.MAX_FILE_SIZE_BYTES <? size fileData) = false)
      by (apply Z.ltb_ge; lia).
    assert (H2 : (size fileData =? BUSINESS_RULES.MAX_FILE_SIZE_BYTES) = false)
      by (apply Z.eqb_neq; lia).
    rewrite H1, H2, andb_false_r. reflexivity. }
  unfold post_invoices_upload. rewrite Hpass. split; [|reflexivity].
  unfold try_catch, InvoiceSubmissionSchema. rewrite andb_false_r. reflexivity.
Qed.

(** When the create-invoice transaction fails, the workflow fails with its
    error and persists no row, but the file that the save-file step wrote
    stays in the upload directory. *)
Theorem failed_create_leaves_the_file
        (penv : ProcessEnv) (env : WorkflowEnv) (fileData : File) (w : World)
        (message : string) :
  validateFileStep fileData = Ok tt ->
  save_file_fault env = None ->
  create_invoice_fault env = Some message ->
  let outcome := invoiceProcessingWorkflow penv env fileData w in
  fst outcome = Throw message
  /\ invoices (snd outcome) = invoices w
  /\ line_items (snd outcome) = line_items w
  /\ files (snd outcome)
     = (stored_path penv env fileData, buffer fileData) :: files w.
Proof.
  intros Hvalid Hsave Hfault. cbv zeta.
  rewrite workflow_steps, Hvalid, Hsave. cbv zeta.
  unfold with_fault at 1. rewrite Hfault. repeat split.
Qed.

(** A file that the validate-file step refuses stops the workflow before
    anything is written: no file, no invoice, no line item. *)
Theorem refused_file_writes_nothing
        (penv : ProcessEnv) (env : WorkflowEnv) (fileData : File) (w : World) :
  ~ In (mimetype fileData) allowedTypes
  \/ BUSINESS_RULES.MAX_FILE_SIZE_BYTES < size fileData ->
  exists message,
    invoiceProcessingWorkflow penv env fileData w = (Throw message, w)
    /\ (includes message ERROR_CODES.INVALID_FILE_FORMAT = true
        \/ includes message ERROR_CODES.FILE_TOO_LARGE = true).
Proof.
  intros H. rewrite workflow_steps. unfold validateFileStep.
  destruct (existsb (String.eqb (mimetype fileData)) allowedTypes) eqn:E; simpl.
  - destruct H as [H | H].
    + exfalso. apply H. apply existsb_exists in E.
      destruct E as (x & Hin & Heq). apply String.eqb_eq in Heq. congruence.
    + apply Z.ltb_lt in H. rewrite H. eexists. split; [reflexivity|].
      right. reflexivity.
  - eexists. split; [reflexivity|]. left. reflexivity.
Qed.

(** ** Ordered reads *)

Lemma insert_before_permutation {A : Type} (before : A -> A -> bool) r l :
  Permutation (insert_before before r l) (r :: l).
Proof.
  induction l as [|x l IH]; simpl; [reflexivity|].
  destruct (before r x); [reflexivity|].
  rewrite IH. apply perm_swap.
Qed.

Lemma order_by_permutation {A : Type} (before : A -> A -> bool) l :
  Permutation (order_by before l) l.
Proof.
  induction l as [|x l IH]; simpl; [reflexivity|].
  rewrite insert_before_permutation. apply perm_skip. exact IH.
Qed.

(** Insertion keeps a list sorted for any relation that [before] decides
    in both directions. *)
Lemma insert_before_sorted {A : Type} (before : A -> A -> bool)
      (R : A -> A -> Prop) r l :
  (forall a b, before a b = true -> R a b) ->
  (forall a b, before a b = false -> R b a) ->
  Sorted R l -> Sorted R (insert_before before r l).
Proof.
  intros Htrue Hfalse. induction l as [|x l IH]; simpl; intros Hs.
  - repeat constructor.
  - destruct (before r x) eqn:E.
    + constructor; [exact Hs|]. constructor. apply Htrue. exact E.
    + inversion Hs as [|? ? Hl Hhd]; subst.
      constructor; [apply IH; exact Hl|].
      destruct l as [|y l]; simpl.
      * constructor. apply Hfalse. exact E.
      * destruct (before r y).
        -- constructor. apply Hfalse. exact E.
        -- inversion Hhd; subst. constructor. assumption.
Qed.

Lemma order_by_sorted {A : Type} (before : A -> A -> bool)
      (R : A -> A -> Prop) l :
  (forall a b, before a b = true -> R a b) ->
  (forall a b, before a b = false -> R b a) ->
  Sorted R (order_by before l).
Proof.
  intros Htrue Hfalse. induction l as [|x l IH]; simpl; [constructor|].
  apply (insert_before_sorted before R); assumption.
Qed.

Lemma order_by_line_number_eq rows :
  order_by_line_number rows
  = order_by (fun r x => LineItems.line_number r <? LineItems.line_number x) rows.
Proof.
  unfold order_by_line_number, order_by.
  induction rows as [|r rows IH]; simpl; [reflexivity|].
  rewrite IH. generalize (fold_right
    (insert_before (fun r x => LineItems.line_number r <? LineItems.line_number x))
    [] rows) as sorted.
  induction sorted as [|x sorted IHs]; simpl; [reflexivity|].
  rewrite IHs. reflexivity.
Qed.

(** The line items of a returned invoice are exactly the stored line items
    of that invoice, each once, in the order of their line numbers. *)
Theorem invoice_is_read_with_its_lines_in_order
        (w w' : World) (invoiceId : string) (invoice : InvoiceResponse.t) :
  getInvoiceByIdTransaction invoiceId w = Ok (Some invoice, w') ->
  exists rows,
    InvoiceResponse.lineItems invoice = map mapLineItem rows
    /\ Permutation rows
         (filter (fun r => String.eqb (LineItems.invoice_id r) invoiceId)
                 (line_items w))
    /\ Sorted (fun a b => LineItems.line_number a <= LineItems.line_number b) rows
    /\ w' = w.
Proof.
  unfold getInvoiceByIdTransaction.
  destruct (first_invoice w invoiceId) as [inv|]; [|discriminate].
  intros [= <- <-].
  eexists. split; [reflexivity|].
  rewrite order_by_line_number_eq. split; [apply order_by_permutation|].
  split; [|reflexivity].
  apply order_by_sorted; intros a b H.
  - apply Z.ltb_lt in H. lia.
  - apply Z.ltb_ge in H. exact H.
Qed.





(** ** Listings and dashboards *)

Lemma Sorted_tail {A : Type} (R : A -> A -> Prop) x l :
  Sorted R (x :: l) -> Sorted R l.
Proof. intros H. inversion H; assumption. Qed.

Lemma Sorted_skipn {A : Type} (R : A -> A -> Prop) n l :
  Sorted R l -> Sorted R (skipn n l).
Proof.
  revert l. induction n as [|n IH]; intros l H; [exact H|].
  destruct l as [|x l]; [constructor|]. simpl. apply IH.
  exact (Sorted_tail R x l H).
Qed.

Lemma Sorted_firstn {A : Type} (R : A -> A -> Prop) n l :
  Sorted R l -> Sorted R (firstn n l).
Proof.
  revert l. induction n as [|n IH]; intros l H; [constructor|].
  destruct l as [|x l]; [constructor|]. simpl.
  inversion H as [|? ? Hl Hhd]; subst.
  constructor; [apply IH; exact Hl|].
  destruct n; [constructor|].
  destruct l as [|y l]; [constructor|]. simpl.
  inversion Hhd; subst. constructor. assumption.
Qed.

Lemma In_first {A : Type} n (l : list A) x : In x (firstn n l) -> In x l.
Proof.
  revert l. induction n as [|n IH]; intros l H; [contradiction|].
  destruct l as [|y l]; [contradiction|].
  destruct H as [-> | H]; [left; reflexivity | right; apply IH; exact H].
Qed.

Lemma In_skip {A : Type} n (l : list A) x : In x (skipn n l) -> In x l.
Proof.
  revert l. induction n as [|n IH]; intros l H; [exact H|].
  destruct l as [|y l]; [contradiction|]. right. apply IH. exact H.
Qed.

Lemma In_page_of {A : Type} limit offset (l : list A) x :
  In x (page_of limit offset l) -> In x l.
Proof.
  unfold page_of. intros H. apply In_first in H. exact (In_skip _ _ _ H).
Qed.

Lemma newer_sorted rows :
  Sorted (fun a b => Invoices.created_at b <= Invoices.created_at a)
         (order_by newer rows).
Proof.
  apply order_by_sorted; unfold newer; intros a b H.
  - apply Z.ltb_lt in H. lia.
  - apply Z.ltb_ge in H. exact H.
Qed.

(** A listing with a limit and an offset that are not negative returns at
    most [limit] invoices, each a stored invoice in the requested status,
    the newest first, and writes nothing. *)
Theorem listing_is_a_page_of_the_status
        (status : string) (limit offset : Z) (w : World) :
  status <> EmptyString ->
  0 <= limit -> 0 <= offset ->
  exists rows,
    getInvoicesWithVendorTransaction (Some status) limit offset w
    = Ok (map (fun invoice =>
                 mapDatabaseToInvoiceResponse w invoice
                   (invoice_line_items w (Invoices.id invoice))) rows, w)
    /\ Z.of_nat (List.length rows) <= limit
    /\ (forall r, In r rows -> In r (invoices w) /\ Invoices.status r = status)
    /\ Sorted (fun a b => Invoices.created_at b <= Invoices.created_at a) rows.
Proof.
  intros Hstatus Hlimit Hoffset. unfold getInvoicesWithVendorTransaction.
  assert (H1 : (limit <? 0) = false) by (apply Z.ltb_ge; exact Hlimit).
  assert (H2 : (offset <? 0) = false) by (apply Z.ltb_ge; exact Hoffset).
  rewrite H1, H2. cbv zeta.
  destruct status as [|c s]; [contradiction|].
  eexists. split; [reflexivity|]. split; [|split].
  - unfold page_of. rewrite length_firstn. lia.
  - intros r Hin. apply In_page_of in Hin.
    apply (Permutation_in _ (order_by_permutation newer _)) in Hin.
    apply filter_In in Hin. destruct Hin as [Hin Heq].
    split; [exact Hin|]. apply String.eqb_eq. exact Heq.
  - unfold page_of. apply Sorted_firstn, Sorted_skipn, newer_sorted.
Qed.

Lemma newest_in_status_length w s n :
  Z.of_nat (List.length (newest_in_status w s n))
  = Z.min (Z.of_nat n) (count_status w s).
Proof.
  unfold newest_in_status, count_status.
  rewrite length_map, length_firstn.
  rewrite (Permutation_length (order_by_permutation newer _)). lia.
Qed.

Lemma newest_in_status_rows w s n data :
  In data (newest_in_status w s n) ->
  InvoiceResponse.status data = InvoiceStatus_value s
  /\ InvoiceResponse.lineItems data = []
  /\ exists r, In r (invoices w) /\ InvoiceResponse.id data = Invoices.id r.
Proof.
  unfold newest_in_status. intros H. apply in_map_iff in H.
  destruct H as (r & <- & Hin). apply In_first in Hin.
  apply (Permutation_in _ (order_by_permutation newer _)) in Hin.
  apply filter_In in Hin. destruct Hin as [Hin Heq].
  apply String.eqb_eq in Heq. simpl. eauto.
Qed.

(** The clerk dashboard never fails and never writes; it shows the five
    newest invoices in [needs_review], or all of them when there are fewer,
    without their line items; and a user id that is absent or malformed
    counts as no processed invoice instead of an error. *)
Theorem clerk_dashboard_summary (user : option string) (w : World) :
  exists data,
    getClerkDashboardDataTransaction user w = Ok (data, w)
    /\ Z.of_nat (List.length (recentActivity data))
       = Z.min 5 (clerk_needsReview data)
    /\ (forall invoice, In invoice (recentActivity data) ->
          InvoiceResponse.status invoice = InvoiceStatus_value NEEDS_REVIEW
          /\ InvoiceResponse.lineItems invoice = [])
    /\ 0 <= invoicesProcessed data <= Z.of_nat (List.length (invoices w))
    /\ (is_uuid (string_or user EmptyString) = false ->
        invoicesProcessed data = 0).
Proof.
  eexists. split; [reflexivity|]. simpl. split; [|split; [|split]].
  - apply (newest_in_status_length w NEEDS_REVIEW 5).
  - intros invoice Hin.
    destruct (newest_in_status_rows _ _ _ _ Hin) as (Hs & Hl & _). auto.
  - destruct (is_uuid _); [|lia].
    split; [lia|]. apply inj_le. apply filter_length_le.
  - intros ->. reflexivity.
Qed.

Lemma filter_either_length {A : Type} (p q : A -> bool) (l : list A) :
  (forall x, p x = true -> q x = true -> False) ->
  List.length (filter (fun x => p x || q x) l)
  = (List.length (filter p l) + List.length (filter q l))%nat.
Proof.
  intros Hdisjoint. induction l as [|x l IH]; simpl; [reflexivity|].
  destruct (p x) eqn:Ep, (q x) eqn:Eq; simpl; rewrite IH; try lia.
  exfalso. exact (Hdisjoint x Ep Eq).
Qed.

(** The manager dashboard never fails and never writes; its approval queue
    holds the ten newest invoices in [awaiting_approval], or all of them
    when there are fewer, and the number of processed invoices is the
    number of approved ones plus the number of rejected ones. *)
Theorem manager_dashboard_summary (w : World) :
  exists data,
    getManagerDashboardDataTransaction w = Ok (data, w)
    /\ Z.of_nat (List.length (approvalQueue data))
       = Z.min 10 (manager_awaitingApproval data)
    /\ (forall invoice, In invoice (approvalQueue data) ->
          InvoiceResponse.status invoice = InvoiceStatus_value AWAITING_APPROVAL)
    /\ totalProcessed data = count_status w APPROVED + count_status w REJECTED
    /\ manager_awaitingApproval data + manager_processing data
       + manager_needsReview data + totalProcessed data
       <= Z.of_nat (List.length (invoices w)).
Proof.
  eexists. split; [reflexivity|]. simpl.
  assert (Htotal :
    Z.of_nat (List.length
      (filter (fun r => String.eqb (Invoices.status r) "approved"
                        || String.eqb (Invoices.status r) "rejected")
              (invoices w)))
    = count_status w APPROVED + count_status w REJECTED).
  { unfold count_status. simpl InvoiceStatus_value.
    rewrite (filter_either_length
               (fun r => String.eqb (Invoices.status r) "approved")
               (fun r => String.eqb (Invoices.status r) "rejected")).
    - lia.
    - intros r Ha Hr. apply String.eqb_eq in Ha, Hr. congruence. }
  split; [|split; [|split]].
  - apply (newest_in_status_length w AWAITING_APPROVAL 10).
  - intros invoice Hin.
    destruct (newest_in_status_rows _ _ _ _ Hin) as (Hs & _). exact Hs.
  - exact Htotal.
  - unfold count_status. simpl InvoiceStatus_value.
    set (has := fun (s : string) (r : Invoices.row) => String.eqb (Invoices.status r) s).
    change (filter (fun r => String.eqb (Invoices.status r) "awaiting_approval"))
      with (filter (has "awaiting_approval"%string)).
    change (filter (fun r => String.eqb (Invoices.status r) "processing"))
      with (filter (has "processing"%string)).
    change (filter (fun r => String.eqb (Invoices.status r) "needs_review"))
      with (filter (has "needs_review"%string)).
    change (filter (fun r => String.eqb (Invoices.status r) "approved"
                             || String.eqb (Invoices.status r) "rejected"))
      with (filter (fun r => has "approved"%string r || has "rejected"%string r)).
    assert (Hno : forall a b r, a <> b -> has a r = true -> has b r = true -> False).
    { intros a b r Hab Ha Hb. apply String.eqb_eq in Ha, Hb. congruence. }
    assert (Hsplit : forall p q : Invoices.row -> bool,
               (forall r, p r = true -> q r = true -> False) ->
               List.length (filter (fun r => p r || q r) (invoices w))
               = (List.length (filter p (invoices w))
                  + List.length (filter q (invoices w)))%nat)
      by (intros p q; apply filter_either_length).
    pose proof (filter_length_le
                  (fun r => ((has "awaiting_approval"%string r
                              || has "processing"%string r)
                             || has "needs_review"%string r)
                            || (has "approved"%string r || has "rejected"%string r))
                  (invoices w)) as Hle.
    rewrite (Hsplit (fun r => (has "awaiting_approval"%string r
                               || has "processing"%string r)
                              || has "needs_review"%string r)
                    (fun r => has "approved"%string r || has "rejected"%string r))
      in Hle.
    + rewrite (Hsplit (fun r => has "awaiting_approval"%string r
                                || has "processing"%string r)
                      (has "needs_review"%string)) in Hle.
      * rewrite (Hsplit (has "awaiting_approval"%string)
                        (has "processing"%string)) in Hle.
        -- lia.
        -- intros r Ha Hb. (refine (Hno _ _ r _ Ha Hb); discriminate).
      * intros r Ha Hb. apply orb_true_iff in Ha. destruct Ha as [Ha | Ha];
          (refine (Hno _ _ r _ Ha Hb); discriminate).
    + intros r Ha Hb. apply orb_true_iff in Ha, Hb.
      destruct Ha as [Ha | Ha]; [apply orb_true_iff in Ha; destruct Ha as [Ha | Ha]|];
        destruct Hb as [Hb | Hb];
        (refine (Hno _ _ r _ Ha Hb); discriminate).
Qed.

(** ** Error answers *)

(** Outside development the error handler never puts the message of the
    error in its answer: the answer is one of four fixed ones, each with a
    fixed status, code and text and with no details. *)
Theorem error_details_only_in_development
        (penv : ProcessEnv) (errorMessage : string) :
  NODE_ENV penv <> Some "development"%string ->
  In (handleError penv errorMessage)
     [ json 400 (createErrorResponse ERROR_CODES.INVALID_FILE_FORMAT
                   "Invalid file format. Only PDF, PNG, and JPG files are allowed."
                   None);
       json 413 (createErrorResponse ERROR_CODES.FILE_TOO_LARGE
                   "File size exceeds the 10MB limit." None);
       json 404 (createErrorResponse "NOT_FOUND" "Resource not found." None);
       json 500 (createErrorResponse "INTERNAL_ERROR"
                   "An internal server error occurred." None) ].
Proof.
  intros Hmode.
  assert (Hdetails : development_details penv errorMessage = None).
  { unfold development_details.
    destruct (NODE_ENV penv) as [mode|]; [|reflexivity].
    destruct (String.eqb mode "development") eqn:E; [|reflexivity].
    apply String.eqb_eq in E. subst mode. contradiction. }
  unfold handleError. rewrite Hdetails.
  destruct (includes errorMessage ERROR_CODES.INVALID_FILE_FORMAT);
    [left; reflexivity|].
  destruct (includes errorMessage ERROR_CODES.FILE_TOO_LARGE);
    [right; left; reflexivity|].
  destruct (includes errorMessage "not found");
    [right; right; left; reflexivity | right; right; right; left; reflexivity].
Qed.

(* ================================================================== *)
(** * Further properties on the seeded store *)

Lemma seed_world_consistent : consistent Seed.world.
Proof.
  intros r [<-|[<-|[<-|[]]]]; reflexivity.
Qed.

Lemma awaiting_approval_iff_witness :
  validateBusinessRulesStep Example.reconciled (Example.overall 0.99%float)
  = AWAITING_APPROVAL.
Proof.
  apply (awaiting_approval_iff Example.reconciled (Example.overall 0.99%float)).
  repeat split; reflexivity.
Defined.

Lemma unreconciled_total_needs_review_witness :
  validateBusinessRulesStep More.wrong_total (Example.overall 0.99%float)
  = NEEDS_REVIEW.
Proof.
  apply (unreconciled_total_needs_review
           More.wrong_total (Example.overall 0.99%float)).
  reflexivity.
Defined.

Lemma low_or_undefined_confidence_needs_review_witness :
  validateBusinessRulesStep Example.reconciled (Example.overall 0.74%float)
  = NEEDS_REVIEW
  /\ validateBusinessRulesStep Example.reconciled (Example.overall nan)
     = NEEDS_REVIEW.
Proof.
  split.
  - apply (low_or_undefined_confidence_needs_review
             Example.reconciled (Example.overall 0.74%float)).
    left. reflexivity.
  - apply (low_or_undefined_confidence_needs_review
             Example.reconciled (Example.overall nan)).
    right. reflexivity.
Defined.



Lemma submit_for_approval_only_from_needs_review_witness :
  post_invoices_submit_for_approval
    Seed.penv (Invoices.id Seed.approved_invoice) Seed.world
  = (json 400 (createErrorResponse ERROR_CODES.INVALID_STATUS_TRANSITION
                 "Invoice is not ready for approval." None), Seed.world).
Proof.
  apply (submit_for_approval_only_from_needs_review
           Seed.penv Seed.world (Invoices.id Seed.approved_invoice)
           Seed.approved_invoice).
  - reflexivity.
  - discriminate.
Defined.

Lemma assign_keeps_status_witness :
  first_invoice
    (snd (post_invoices_assign
            Seed.penv (Invoices.id Seed.approved_invoice)
            (Some {| userId := Some (Users.id Seed.manager) |}) Seed.world))
    (Invoices.id Seed.approved_invoice)
  = Some (Invoices.set_assigned_to (Users.id Seed.manager) Seed.approved_invoice).
Proof.
  apply (assign_keeps_status
           Seed.penv Seed.world (Invoices.id Seed.approved_invoice)
           {| userId := Some (Users.id Seed.manager) |}
           Seed.approved_invoice Seed.manager).
  - right. left. reflexivity.
  - reflexivity.
  - reflexivity.
  - reflexivity.
  - reflexivity.
Defined.

Lemma second_approve_is_refused_witness :
  http_status
    (fst (post_invoices_approve
            Seed.penv (Invoices.id Seed.awaiting_approval_invoice)
            (Some (Users.id Seed.manager))
            (Some {| approval_comments := None |}) Seed.world))
  = 200.
Proof.
  apply (second_approve_is_refused
           Seed.penv Seed.world (Invoices.id Seed.awaiting_approval_invoice)
           (Users.id Seed.manager) (Users.id Seed.clerk)
           {| approval_comments := None |} {| approval_comments := None |}
           Seed.awaiting_approval_invoice);
    reflexivity.
Defined.

Lemma submit_then_approve_witness :
  http_status
    (fst (post_invoices_submit_for_approval
            Seed.penv (Invoices.id Seed.needs_review_invoice) Seed.world))
  = 200.
Proof.
  apply (submit_then_approve
           Seed.penv Seed.world (Invoices.id Seed.needs_review_invoice)
           (Users.id Seed.manager) {| approval_comments := None |}
           Seed.needs_review_invoice);
    reflexivity.
Defined.

Lemma reject_after_approve_keeps_approver_witness :
  http_status
    (fst (post_invoices_reject
            Seed.penv (Invoices.id Seed.awaiting_approval_invoice)
            (Some {| reason := Some "duplicate"%string;
                     rejection_comments := None |})
            (snd (post_invoices_approve
                    Seed.penv (Invoices.id Seed.awaiting_approval_invoice)
                    (Some (Users.id Seed.manager))
                    (Some {| approval_comments := None |}) Seed.world))))
  = 200.
Proof.
  apply (reject_after_approve_keeps_approver
           Seed.penv Seed.world (Invoices.id Seed.awaiting_approval_invoice)
           (Users.id Seed.manager) "duplicate"
           {| approval_comments := None |}
           {| reason := Some "duplicate"%string; rejection_comments := None |}
           Seed.awaiting_approval_invoice);
    solve [reflexivity | discriminate].
Defined.


Lemma user_id_of_wrong_length_is_refused_witness :
  post_invoices_assign
    Seed.penv (Invoices.id Seed.needs_review_invoice)
    (Some {| userId := Some "manager"%string |}) Seed.world
  = (json 400 (createErrorResponse "INVALID_USER_ID"
                 "User ID must be a valid UUID format." None), Seed.world).
Proof.
  apply (user_id_of_wrong_length_is_refused
           Seed.penv Seed.world (Invoices.id Seed.needs_review_invoice)
           "manager" {| approval_comments := None |}
           {| userId := Some "manager"%string |});
    solve [reflexivity | discriminate].
Defined.

Lemma actions_keep_the_store_consistent_witness :
  consistent
    (snd (post_invoices_reject
            Seed.penv (Invoices.id Seed.approved_invoice)
            (Some {| reason := Some "duplicate"%string;
                     rejection_comments := None |}) Seed.world)).
Proof.
  apply (actions_keep_the_store_consistent
           Seed.penv Seed.world (Invoices.id Seed.approved_invoice)
           (Some (Users.id Seed.manager))
           (Some {| approval_comments := None |})
           (Some {| reason := Some "duplicate"%string;
                    rejection_comments := None |})
           (Some {| userId := Some (Users.id Seed.manager) |})).
  exact seed_world_consistent.
Defined.

Lemma upload_keeps_the_store_consistent_witness :
  consistent
    (snd (post_invoices_upload
            true Seed.penv Seed.env (Some (Seed.pdf 2048))
            (ConformingMetadata {| expectedVendor := None; expectedAmount := None;
                                  purchaseOrderNumber := None |})
            Seed.world)).
Proof.
  apply (upload_keeps_the_store_consistent
           true Seed.penv Seed.env (Some (Seed.pdf 2048))
           (ConformingMetadata {| expectedVendor := None; expectedAmount := None;
                                  purchaseOrderNumber := None |})
           Seed.world).
  exact seed_world_consistent.
Defined.

Lemma other_types_never_reach_the_workflow_witness :
  post_invoices_upload true Seed.penv Seed.env (Some More.jpg)
                       NoMetadata Seed.world
  = (json 400 (createErrorResponse ERROR_CODES.INVALID_FILE_FORMAT
                 "Invalid file format. Only PDF, PNG, and JPG files are allowed."
                 None), Seed.world).
Proof.
  apply (other_types_never_reach_the_workflow
           true Seed.penv Seed.env More.jpg NoMetadata Seed.world).
  intros [H|[H|[H|[]]]]; discriminate H.
Defined.

Lemma bad_metadata_stops_before_the_workflow_witness :
  post_invoices_upload true Seed.penv Seed.env (Some (Seed.pdf 2048))
                       NonConformingMetadata Seed.world
  = (json 400 (createErrorResponse "VALIDATION_ERROR" "Invalid request data."
                 (Some "issues"%string)), Seed.world).
Proof.
  apply (bad_metadata_stops_before_the_workflow
           Seed.penv Seed.env (Seed.pdf 2048)
           "Unexpected token in JSON at position 0" Seed.world).
  - left. reflexivity.
  - reflexivity.
Defined.

Lemma failed_create_leaves_the_file_witness :
  files (snd (invoiceProcessingWorkflow
                Seed.penv More.env_create_fails (Seed.pdf 2048) Seed.world))
  = [(stored_path Seed.penv More.env_create_fails (Seed.pdf 2048),
      buffer (Seed.pdf 2048))].
Proof.
  apply (failed_create_leaves_the_file
           Seed.penv More.env_create_fails (Seed.pdf 2048) Seed.world
           "connect ECONNREFUSED 127.0.0.1:5432");
    reflexivity.
Defined.

Lemma refused_file_writes_nothing_witness :
  exists message,
    invoiceProcessingWorkflow Seed.penv Seed.env More.exe Seed.world
    = (Throw message, Seed.world)
    /\ (includes message ERROR_CODES.INVALID_FILE_FORMAT = true
        \/ includes message ERROR_CODES.FILE_TOO_LARGE = true).
Proof.
  apply (refused_file_writes_nothing Seed.penv Seed.env More.exe Seed.world).
  left. intros [H|[H|[H|[H|[]]]]]; discriminate H.
Defined.

Lemma invoice_is_read_with_its_lines_in_order_witness :
  exists rows,
    InvoiceResponse.lineItems
      (mapDatabaseToInvoiceResponse
         More.world_with_lines Seed.needs_review_invoice
         (invoice_line_items More.world_with_lines
                             (Invoices.id Seed.needs_review_invoice)))
    = map mapLineItem rows
    /\ Permutation rows
         (filter (fun r => String.eqb (LineItems.invoice_id r)
                                      (Invoices.id Seed.needs_review_invoice))
                 (line_items More.world_with_lines))
    /\ Sorted (fun a b => LineItems.line_number a <= LineItems.line_number b) rows
    /\ More.world_with_lines = More.world_with_lines.
Proof.
  apply (invoice_is_read_with_its_lines_in_order
           More.world_with_lines More.world_with_lines
           (Invoices.id Seed.needs_review_invoice)).
  reflexivity.
Defined.


Lemma listing_is_a_page_of_the_status_witness :
  exists rows,
    getInvoicesWithVendorTransaction
      (Some (InvoiceStatus_value NEEDS_REVIEW)) 20 0 Seed.world
    = Ok (map (fun invoice =>
                 mapDatabaseToInvoiceResponse Seed.world invoice
                   (invoice_line_items Seed.world (Invoices.id invoice))) rows,
          Seed.world)
    /\ Z.of_nat (List.length rows) <= 20
    /\ (forall r, In r rows ->
          In r (invoices Seed.world)
          /\ Invoices.status r = InvoiceStatus_value NEEDS_REVIEW)
    /\ Sorted (fun a b => Invoices.created_at b <= Invoices.created_at a) rows.
Proof.
  apply (listing_is_a_page_of_the_status
           (InvoiceStatus_value NEEDS_REVIEW) 20 0 Seed.world).
  - discriminate.
  - lia.
  - lia.
Defined.

Lemma error_details_only_in_development_witness :
  In (handleError Seed.penv "connect ECONNREFUSED 127.0.0.1:5432")
     [ json 400 (createErrorResponse ERROR_CODES.INVALID_FILE_FORMAT
                   "Invalid file format. Only PDF, PNG, and JPG files are allowed."
                   None);
       json 413 (createErrorResponse ERROR_CODES.FILE_TOO_LARGE
                   "File size exceeds the 10MB limit." None);
       json 404 (createErrorResponse "NOT_FOUND" "Resource not found." None);
       json 500 (createErrorResponse "INTERNAL_ERROR"
                   "An internal server error occurred." None) ].
Proof.
  apply (error_details_only_in_development
           Seed.penv "connect ECONNREFUSED 127.0.0.1:5432").
  discriminate.
Defined.

Lemma clerk_dashboard_summary_witness :
  exists data,
    getClerkDashboardDataTransaction (Some "clerk"%string) Seed.world
    = Ok (data, Seed.world)
    /\ Z.of_nat (List.length (recentActivity data))
       = Z.min 5 (clerk_needsReview data)
    /\ (forall invoice, In invoice (recentActivity data) ->
          InvoiceResponse.status invoice = InvoiceStatus_value NEEDS_REVIEW
          /\ InvoiceResponse.lineItems invoice = [])
    /\ 0 <= invoicesProcessed data <= Z.of_nat (List.length (invoices Seed.world))
    /\ (is_uuid (string_or (Some "clerk"%string) EmptyString) = false ->
        invoicesProcessed data = 0).
Proof.
  exact (clerk_dashboard_summary (Some "clerk"%string) Seed.world).
Defined.

Lemma manager_dashboard_summary_witness :
  exists data,
    getManagerDashboardDataTransaction Seed.world = Ok (data, Seed.world)
    /\ Z.of_nat (List.length (approvalQueue data))
       = Z.min 10 (manager_awaitingApproval data)
    /\ (forall invoice, In invoice (approvalQueue data) ->
          InvoiceResponse.status invoice = InvoiceStatus_value AWAITING_APPROVAL)
    /\ totalProcessed data
       = count_status Seed.world APPROVED + count_status Seed.world REJECTED
    /\ manager_awaitingApproval data + manager_processing data
       + manager_needsReview data + totalProcessed data
       <= Z.of_nat (List.length (invoices Seed.world)).
Proof.
  exact (manager_dashboard_summary Seed.world).
Defined.
